(** * Tenant isolation and capability-based authorization core

    A shallow embedding of the multi-tenant NestJS backend: the tenant
    interceptor, the two MikroORM event subscribers, the CASL ability
    factory, the policies guard and the read-user policy, followed by the
    properties proved about them. *)

From Stdlib Require Import ZArith NArith List String Ascii Bool Lia.
From stdpp Require Import base option gmap strings.
Import ListNotations.

Local Open Scope Z_scope.

(** ** JavaScript values used by the program *)

Module Js.

(** A JavaScript string is a sequence of UTF-16 code units. *)
Abbreviation jsstring := (list N).

(** Source-code string literals (ASCII). *)
Definition lit (s : string) : jsstring :=
  List.map N_of_ascii (list_ascii_of_string s).

(** A JavaScript number (an IEEE 754 double): [NaN], an infinity, a double
    whose value is the integer [z], or a double that is no integer, [m / 2^k]
    with [m] odd.  The two zeros are one value here: no operation the
    program uses tells them apart. *)
Inductive number :=
| NaN
| Num (z : Z)
| Infinity (negative : bool)
| Dyadic (m : Z) (k : positive).

(** The Number value for the ratio [n / d] of a natural number and a
    positive one, with the sign given: the nearest double, a tie going to
    the even significand; 53 bits of significand, the least exponent
    [-1074], and an infinity from [2^1024] on. *)
Definition ofRatio (negative : bool) (n d : Z) : number :=
  let sgn := if negative then -1 else 1 in
  let e0 := Z.log2 n - Z.log2 d in
  let reaches (e : Z) :=
    if 0 <=? e then d * 2 ^ e <=? n else d <=? n * 2 ^ (- e) in
  let e := if reaches e0 then e0 else e0 - 1 in
  let p := Z.max (e - 52) (-1074) in
  let N := if 0 <=? p then n else n * 2 ^ (- p) in
  let D := if 0 <=? p then d * 2 ^ p else d in
  let q := N / D in
  let r := N mod D in
  let q' := if (D <? 2 * r) || ((2 * r =? D) && Z.odd q) then q + 1 else q in
  if 0 <=? p then
    if 2 ^ 1024 <=? q' * 2 ^ p then Infinity negative
    else Num (sgn * (q' * 2 ^ p))
  else
    let g := Z.gcd q' (2 ^ (- p)) in
    let k := Z.log2 (2 ^ (- p) / g) in
    if k =? 0 then Num (sgn * (q' / g)) else Dyadic (sgn * (q' / g)) (Z.to_pos k).

(** The Number value for an integer: the integer itself below [2^53] in
    magnitude, the nearest double from there on. *)
Definition ofZ (z : Z) : number :=
  if Z.abs z <? 2 ^ 53 then Num z else ofRatio (z <? 0) (Z.abs z) 1.


(** [a === b] on numbers: [NaN] equals nothing. *)
Definition sameNumber (a b : number) : bool :=
  match a, b with
  | Num x, Num y => x =? y
  | Infinity s, Infinity s' => Bool.eqb s s'
  | Dyadic m k, Dyadic m' k' => (m =? m') && (k =? k')%positive
  | _, _ => false
  end.

(** [a === b] on numbers, the left one being the Number an integer key is
    read as. *)
Definition strictEquals (a : Z) (b : number) : bool := sameNumber (ofZ a) b.

(** [StrWhiteSpaceChar]: WhiteSpace and LineTerminator code units. *)
Definition isWhiteSpace (c : N) : bool :=
  ((c =? 9) || (c =? 10) || (c =? 11) || (c =? 12) || (c =? 13)
   || (c =? 32) || (c =? 160) || (c =? 5760)
   || ((8192 <=? c) && (c <=? 8202))
   || (c =? 8232) || (c =? 8233) || (c =? 8239) || (c =? 8287)
   || (c =? 12288) || (c =? 65279))%N.

Fixpoint trimStart (s : jsstring) : jsstring :=
  match s with
  | c :: s' => if isWhiteSpace c then trimStart s' else s
  | [] => []
  end.

(** Value of a code unit read as a digit or a letter. *)
Definition digitValue (c : N) : option N :=
  (if (48 <=? c) && (c <=? 57) then Some (c - 48)
   else if (97 <=? c) && (c <=? 122) then Some (c - 87)
   else if (65 <=? c) && (c <=? 90) then Some (c - 55)
   else None)%N.

Definition radixDigit (R c : N) : option N :=
  match digitValue c with
  | Some d => if (d <? R)%N then Some d else None
  | None => None
  end.

(** Reads the longest prefix of radix-[R] digits; [acc] is [None] until a
    first digit was read. *)
Fixpoint parseDigits (R : N) (acc : option N) (s : jsstring) : option N :=
  match s with
  | c :: s' =>
      match radixDigit R c with
      | Some d => parseDigits R (Some (R * default 0%N acc + d)%N) s'
      | None => acc
      end
  | [] => acc
  end.

(** Optional sign: [-] is code unit 45, [+] is 43. *)
Definition stripSign (s : jsstring) : Z * jsstring :=
  match s with
  | c :: s' =>
      if (c =? 45)%N then (-1, s')
      else if (c =? 43)%N then (1, s')
      else (1, s)
  | [] => (1, [])
  end.

(** A string that begins with [0x] or [0X]. *)
Definition hasHexPrefix (s : jsstring) : bool :=
  match s with
  | c0 :: c1 :: _ => ((c0 =? 48) && ((c1 =? 120) || (c1 =? 88)))%N
  | _ => false
  end.

(** Radix detection with an undefined radix: [0x] or [0X] selects 16. *)
Definition stripPrefix (s : jsstring) : N * jsstring :=
  if hasHexPrefix s then (16%N, drop 2 s) else (10%N, s).

(** [parseInt(string)] with no radix argument: the Number value for the
    integer the digits denote (the engine at hand, V8, rounds that integer
    itself, however many digits it has). *)
Definition parseInt (input : jsstring) : number :=
  let '(sign, s1) := stripSign (trimStart input) in
  let '(R, s2) := stripPrefix s1 in
  match parseDigits R None s2 with
  | None => NaN
  | Some m => ofZ (sign * Z.of_N m)
  end.

(** Decimal digits of a natural number, most significant first. *)
Fixpoint digitsOf (fuel : nat) (n : N) (acc : jsstring) : jsstring :=
  match fuel with
  | O => acc
  | S f =>
      let acc' := (48 + n mod 10)%N :: acc in
      if (n / 10 =? 0)%N then acc' else digitsOf f (n / 10)%N acc'
  end.

(** [String(n)] for an integer [n] below [10^21] in magnitude, which is
    printed by its decimal digits. *)
Definition toString (z : Z) : jsstring :=
  let n := Z.to_N (Z.abs z) in
  let ds := digitsOf (S (N.to_nat (N.size n))) n [] in
  if z <? 0 then 45%N :: ds else ds.





(** [a + b] on a string and a possibly undefined value. *)
Definition concatUndefined (a : jsstring) (b : option jsstring) : jsstring :=
  a ++ default (lit "undefined") b.

(** *** Unary plus on a string ([StringToNumber]) *)







End Js.

(** ** Exceptions and results *)

Inductive Exception :=
| HttpException (status : Z) (message : string)
| TypeError (message : string)
| Error (message : string).

Definition BadRequestException := HttpException 400.
Definition UnauthorizedException := HttpException 401.
Definition ForbiddenException := HttpException 403.
Definition InternalServerErrorException := HttpException 500.

(** The status an exception reaches the client with: anything that is not an
    [HttpException] is reported as an internal server error. *)
Definition getStatus (e : Exception) : Z :=
  match e with
  | HttpException s _ => s
  | _ => 500
  end.

Inductive result (A : Type) :=
| Ok (a : A)
| Throw (e : Exception).
Arguments Ok {A} a.
Arguments Throw {A} e.

#[global] Instance result_bind : MBind result := fun A B k r =>
  match r with
  | Ok a => k a
  | Throw e => Throw e
  end.

(** ** Entities (src/entities) *)

(** A MikroORM collection: reading its items before it was loaded throws. *)
Inductive Collection (A : Type) :=
| Uninitialized
| Initialized (items : list A).
Arguments Uninitialized {A}.
Arguments Initialized {A} items.

Module Permission.
(** [action] and [subject] are nullable string columns. *)
Record t := {
  id : Z;
  name : Js.jsstring;
  action : option Js.jsstring;
  subject : option Js.jsstring
}.
End Permission.

Module Role.
Record t := {
  id : Z;
  name : Js.jsstring;
  permissions : Collection Permission.t
}.
End Role.

Module Tenant.
Record t := {
  id : Z;
  domain : Js.jsstring;
  isActive : bool
}.
End Tenant.

Module User.
(** [role] and [tenant] are object references, undefined when the object
    at hand carries none. *)
Record t := {
  id : Z;
  username : Js.jsstring;
  email : Js.jsstring;
  password : Js.jsstring;
  role : option Role.t;
  tenant : option Tenant.t
}.
End User.

Module Organization.
Record t := {
  id : Z;
  tenant : option Tenant.t;
  name : Js.jsstring;
  description : option Js.jsstring
}.
End Organization.

(** Entity classes, as they are listed in configuration and dispatched on. *)
Inductive EntityName :=
| UserEntity
| OrganizationEntity
| TenantEntity
| RoleEntity
| PermissionEntity.

#[global] Instance EntityName_eq_dec : EqDecision EntityName.
Proof. solve_decision. Defined.

(** An entity instance of any class ([EventArgs<any>]). *)
Inductive AnyEntity :=
| EUser (u : User.t)
| EOrganization (o : Organization.t)
| ETenant (t : Tenant.t)
| ERole (r : Role.t)
| EPermission (p : Permission.t).

Definition constructorName (e : AnyEntity) : EntityName :=
  match e with
  | EUser _ => UserEntity
  | EOrganization _ => OrganizationEntity
  | ETenant _ => TenantEntity
  | ERole _ => RoleEntity
  | EPermission _ => PermissionEntity
  end.

(** [entity.tenant], undefined on the classes that have no such property. *)
Definition getTenant (e : AnyEntity) : option Tenant.t :=
  match e with
  | EUser u => User.tenant u
  | EOrganization o => Organization.tenant o
  | _ => None
  end.

(** [entity.tenant = v].  On a class without a mapped [tenant] property the
    assignment creates an unmapped one, which the ORM does not persist. *)
Definition setTenant (v : option Tenant.t) (e : AnyEntity) : AnyEntity :=
  match e with
  | EUser u =>
      EUser {| User.id := User.id u; User.username := User.username u;
               User.email := User.email u; User.password := User.password u;
               User.role := User.role u; User.tenant := v |}
  | EOrganization o =>
      EOrganization {| Organization.id := Organization.id o;
                       Organization.tenant := v;
                       Organization.name := Organization.name o;
                       Organization.description := Organization.description o |}
  | _ => e
  end.

(** ** Configuration (src/config/tenant.config.ts) *)

Module TenantConfig.
Record t := {
  entities : list EntityName;
  domain : option Js.jsstring
}.
End TenantConfig.

(** [registerAs('tenant', ...)]: the tenant-owned classes and the root domain
    read from the environment variable [TENANT_DOMAIN]. *)
Definition tenantConfig (TENANT_DOMAIN : option Js.jsstring) : TenantConfig.t :=
  {| TenantConfig.entities := [UserEntity; OrganizationEntity];
     TenantConfig.domain := TENANT_DOMAIN |}.

(** ** Request context store (nestjs-cls) *)

Module ClsService.
(** The store of the current request. *)
Abbreviation store := (gmap string Tenant.t).

Definition get (st : store) (key : string) : option Tenant.t := st !! key.

(** Setting a key to undefined reads back as undefined. *)
Definition set (st : store) (key : string) (v : option Tenant.t) : store :=
  match v with
  | Some t => <[key := t]> st
  | None => delete key st
  end.
End ClsService.

(** ** CASL abilities (@casl/ability, as used by the factory) *)

Module Casl.

(** A raw rule.  The factory builds rules of two properties; [inverted]
    is the optional property that would make a rule a prohibition. *)
Record RawRule := {
  action : option Js.jsstring;
  subject : option Js.jsstring;
  inverted : option bool
}.

(** The two reserved words of the rule index. *)
Definition anyAction : Js.jsstring := Js.lit "manage".
Definition anySubjectType : Js.jsstring := Js.lit "all".

(** An ability holds its raw rules in the order given. *)
Record Ability := { rules : list RawRule }.

Definition createMongoAbility (rawRules : list RawRule) : Ability :=
  {| rules := rawRules |}.

(** The subject a rule is indexed under: [rule.subject || 'all']. *)
Definition subjectKey (r : RawRule) : Js.jsstring :=
  match subject r with
  | Some [] | None => anySubjectType
  | Some s => s
  end.

(** A rule is a candidate for [(a, s)] when it is indexed under [s] or
    under ['all'], and under [a] or under ['manage']. *)
Definition matches (a s : Js.jsstring) (r : RawRule) : bool :=
  (bool_decide (subjectKey r = s) || bool_decide (subjectKey r = anySubjectType))
  && (bool_decide (action r = Some a) || bool_decide (action r = Some anyAction)).

(** Candidate rules, the rule given last first. *)
Definition rulesFor (ab : Ability) (a s : Js.jsstring) : list RawRule :=
  List.filter (matches a s) (rev (rules ab)).

(** Rules without conditions match every subject: the first candidate is
    the relevant rule. *)
Definition relevantRuleFor (ab : Ability) (a s : Js.jsstring) : option RawRule :=
  head (rulesFor ab a s).

(** [ability.can(action, subject)]. *)
Definition can (ab : Ability) (a s : Js.jsstring) : bool :=
  match relevantRuleFor ab a s with
  | Some r => negb (default false (inverted r))
  | None => false
  end.

End Casl.

(** ** Ability factory (CaslAbilityFactory) *)

Module Subjects.
Definition User := Js.lit "User".
Definition Role := Js.lit "Role".
Definition Permission := Js.lit "Permission".
Definition Organization := Js.lit "Organization".
End Subjects.

Module Actions.
Definition Manage := Js.lit "manage".
Definition Create := Js.lit "create".
Definition CreateAny := Js.lit "createAny".
Definition CreateOne := Js.lit "createOne".
Definition CreateOwn := Js.lit "createOwn".
Definition Read := Js.lit "read".
Definition ReadAny := Js.lit "readAny".
Definition ReadOne := Js.lit "readOne".
Definition ReadOwn := Js.lit "readOwn".
Definition Update := Js.lit "update".
Definition UpdateAny := Js.lit "updateAny".
Definition UpdateOne := Js.lit "updateOne".
Definition UpdateOwn := Js.lit "updateOwn".
Definition Delete := Js.lit "delete".
Definition DeleteAny := Js.lit "deleteAny".
Definition DeleteOne := Js.lit "deleteOne".
Definition DeleteOwn := Js.lit "deleteOwn".
End Actions.

Module CaslAbilityFactory.

(** The rule a permission is mapped to. *)
Definition toRule (permission : Permission.t) : Casl.RawRule :=
  {| Casl.action := Permission.action permission;
     Casl.subject := Permission.subject permission;
     Casl.inverted := None |}.

(** [user.role.permissions.map(...)], then [createMongoAbility]. *)
Definition createForUser (user : option User.t) : result Casl.Ability :=
  match user with
  | None => Throw (TypeError "Cannot read properties of undefined (reading 'role')")
  | Some u =>
      match User.role u with
      | None => Throw (TypeError "Cannot read properties of undefined (reading 'permissions')")
      | Some r =>
          match Role.permissions r with
          | Uninitialized => Throw (Error "Collection<Permission> of entity Role not initialized")
          | Initialized ps => Ok (Casl.createMongoAbility (List.map toRule ps))
          end
      end
  end.

End CaslAbilityFactory.

(** ** Requests, route metadata and policy handlers *)

Module Request.
Record Params := { id : Js.jsstring }.

Record t := {
  user : option User.t;
  params : Params
}.
End Request.

(** A policy is an object with a [handle] method or a bare function. *)
Definition PolicyHandlerCallback :=
  Casl.Ability -> option User.t -> Request.t -> result bool.

Inductive PolicyHandler :=
| IPolicyHandler (handle : PolicyHandlerCallback)
| Callback (f : PolicyHandlerCallback).

(** Metadata set by the decorators [@Public()], [@SkipTenant()] and
    [@CheckPolicies(...)] on a handler or a controller class. *)
Module Metadata.
Record t := {
  isPublic : option bool;
  skipTenant : option bool;
  checkPolicy : option (list PolicyHandler)
}.

Definition none : t :=
  {| isPublic := None; skipTenant := None; checkPolicy := None |}.
End Metadata.

Module ExecutionContext.
Record t := {
  getHandler : Metadata.t;
  getClass : Metadata.t;
  getRequest : Request.t
}.
End ExecutionContext.

Module Reflector.
(** First defined value among the targets. *)
Definition getAllAndOverride {A} (key : Metadata.t -> option A)
    (targets : list Metadata.t) : option A :=
  head (omap key targets).

Definition get {A} (key : Metadata.t -> option A) (target : Metadata.t)
    : option A :=
  key target.
End Reflector.

(** Truthiness of an optional boolean. *)
Definition truthy (b : option bool) : bool := default false b.

(** [Array.prototype.every]: stops at the first element that fails, and at
    the first call that throws. *)
Fixpoint every {A} (f : A -> result bool) (l : list A) : result bool :=
  match l with
  | [] => Ok true
  | x :: l' => b ← f x; if b : bool then every f l' else Ok false
  end.

(** ** Policies guard (src/common/guards/policies.guard.ts) *)

Module PoliciesGuard.

Definition execPolicyHandler (handler : PolicyHandler) (ability : Casl.Ability)
    (user : option User.t) (request : Request.t) : result bool :=
  match handler with
  | Callback f => f ability user request
  | IPolicyHandler handle => handle ability user request
  end.

Definition canActivate (context : ExecutionContext.t) : result bool :=
  let policyHandlers :=
    default [] (Reflector.get Metadata.checkPolicy
                  (ExecutionContext.getHandler context)) in
  let user := Request.user (ExecutionContext.getRequest context) in
  ability ← CaslAbilityFactory.createForUser user;
  every (fun handler =>
           execPolicyHandler handler ability user
             (ExecutionContext.getRequest context))
        policyHandlers.

End PoliciesGuard.

(** ** Policies *)

Module ReadUserPolicy.

(** [can(ReadAny, User) || (can(ReadOwn, User) && user.id === parseInt(id))];
    [user.id] is read only when the first test fails and the second
    succeeds. *)
Definition handle : PolicyHandlerCallback := fun ability user request =>
  if Casl.can ability Actions.ReadAny Subjects.User then Ok true
  else if Casl.can ability Actions.ReadOwn Subjects.User then
    match user with
    | Some u =>
        Ok (Js.strictEquals (User.id u)
              (Js.parseInt (Request.id (Request.params request))))
    | None => Throw (TypeError "Cannot read properties of undefined (reading 'id')")
    end
  else Ok false.

End ReadUserPolicy.

Module ReadAnyOrganizationPolicyHandler.
Definition handle : PolicyHandlerCallback := fun ability _ _ =>
  Ok (Casl.can ability Actions.ReadAny Subjects.Organization).
End ReadAnyOrganizationPolicyHandler.

Module DeleteOrganizationPolicyHandler.
Definition handle : PolicyHandlerCallback := fun ability _ _ =>
  Ok (Casl.can ability Actions.Delete Subjects.Organization).
End DeleteOrganizationPolicyHandler.

(** ** Data access (MikroORM entity manager, filters and repositories) *)

(** What the data-access layer needs of a mapped class: its name, the
    primary key of a row and the key held by its [tenant] column. *)
Class Entity (A : Type) := {
  entityName : EntityName;
  primaryKey : A -> Z;
  tenantKey : A -> option Z
}.

#[global] Instance User_Entity : Entity User.t := {
  entityName := UserEntity;
  primaryKey := User.id;
  tenantKey u := Tenant.id <$> User.tenant u
}.

#[global] Instance Organization_Entity : Entity Organization.t := {
  entityName := OrganizationEntity;
  primaryKey := Organization.id;
  tenantKey o := Tenant.id <$> Organization.tenant o
}.

(** Runs [f] over a list, stopping at the first exception. *)
Fixpoint traverse {A B} (f : A -> result B) (l : list A) : result (list B) :=
  match l with
  | [] => Ok []
  | x :: l' => y ← f x; ys ← traverse f l'; Ok (y :: ys)
  end.

Module EntityManager.

(** The argument object [{ tenantId }] and the condition object
    [{ tenant }] of the one filter the program installs. *)
Record FilterParams := { tenantId : Z }.
Record Where := { tenant : Z }.

Record FilterDef := {
  cond : FilterParams -> Where;
  entity : list EntityName
}.

(** Filters and their parameters, by filter name. *)
Record t := {
  filters : gmap string FilterDef;
  filterParams : gmap string FilterParams
}.

(** A session on which nothing was installed yet. *)
Definition fresh : t := {| filters := ∅; filterParams := ∅ |}.

Definition addFilter (name : string) (cond : FilterParams -> Where)
    (entityName : list EntityName) (em : t) : t :=
  {| filters := <[name := {| cond := cond; entity := entityName |}]> (filters em);
     filterParams := filterParams em |}.

Definition setFilterParams (name : string) (args : FilterParams) (em : t) : t :=
  {| filters := filters em;
     filterParams := <[name := args]> (filterParams em) |}.

(** The conditions of the filters registered for class [E]; a filter
    whose condition is a function needs its parameters. *)
Definition applyFilters (em : t) (E : EntityName) : result (list Where) :=
  traverse
    (fun nf : string * FilterDef =>
       match filterParams em !! nf.1 with
       | Some args => Ok (cond nf.2 args)
       | None => Throw (Error "No arguments provided for filter")
       end)
    (List.filter (fun nf : string * FilterDef => bool_decide (E ∈ entity nf.2))
                 (map_to_list (filters em))).

Definition satisfies `{Entity A} (w : Where) (row : A) : bool :=
  bool_decide (tenantKey row = Some (tenant w)).

(** [em.findOne(Class, id)]: the row with that key that satisfies every
    filter condition, or null. *)
Definition findOne `{Entity A} (em : t) (table : list A) (id : Z)
    : result (option A) :=
  conds ← applyFilters em entityName;
  Ok (List.find
        (fun row => (primaryKey row =? id)
                    && forallb (fun w => satisfies w row) conds)
        table).

End EntityManager.

(** The options the program passes to [findOne]; they choose what is loaded
    along with the row, not which row is found. *)
Record FindOneOptions := {
  populate : list string;
  disableIdentityMap : bool
}.

Module EntityRepository.
Definition findOne `{Entity A} (em : EntityManager.t) (table : list A)
    (id : Z) (options : option FindOneOptions) : result (option A) :=
  EntityManager.findOne em table id.
End EntityRepository.

Module OrganizationsService.
Definition findOne (em : EntityManager.t) (repo : list Organization.t)
    (id : Z) (options : option FindOneOptions)
    : result (option Organization.t) :=
  match options with
  | Some o => EntityRepository.findOne em repo id (Some o)
  | None => EntityRepository.findOne em repo id None
  end.
End OrganizationsService.

Module UsersService.
Definition findOne (em : EntityManager.t) (repo : list User.t)
    (id : Z) (options : option FindOneOptions) : result (option User.t) :=
  match options with
  | Some o => EntityRepository.findOne em repo id (Some o)
  | None => EntityRepository.findOne em repo id None
  end.
End UsersService.

(** ** Principal resolver (src/auth/jwt.strategy.ts) *)

Module JwtStrategy.
(** Loads the user named by the token and records its tenant in the
    request context store. *)
Definition validate (em : EntityManager.t) (users : list User.t)
    (cls : ClsService.store) (sub : Z)
    : result (option User.t * ClsService.store) :=
  user ← UsersService.findOne em users sub
           (Some {| populate := ["role"; "role.permissions"; "tenant"];
                    disableIdentityMap := true |});
  match user with
  | Some u => Ok (Some u, ClsService.set cls "tenant" (User.tenant u))
  | None => Ok (None, cls)
  end.
End JwtStrategy.

(** ** Tenant interceptor (src/tenants/tenants.interceptor.ts) *)

Module TenantInterceptor.

(** Returns the session [next.handle()] runs on. *)
Definition intercept (tenantConfigService : TenantConfig.t)
    (context : ExecutionContext.t) (em : EntityManager.t)
    : result EntityManager.t :=
  let request := ExecutionContext.getRequest context in
  let isPublic :=
    Reflector.getAllAndOverride Metadata.isPublic
      [ExecutionContext.getHandler context; ExecutionContext.getClass context] in
  if truthy isPublic then Ok em
  else
    let shouldSkipTenant :=
      Reflector.getAllAndOverride Metadata.skipTenant
        [ExecutionContext.getHandler context; ExecutionContext.getClass context] in
    if truthy shouldSkipTenant then Ok em
    else
      match Request.user request with
      | None => Throw (InternalServerErrorException "User not found")
      | Some user =>
          match User.tenant user with
          | None => Throw (InternalServerErrorException "Tenant not found")
          | Some tenant =>
              let em1 :=
                EntityManager.addFilter "tenant"
                  (fun args => {| EntityManager.tenant := EntityManager.tenantId args |})
                  (TenantConfig.entities tenantConfigService) em in
              Ok (EntityManager.setFilterParams "tenant"
                    {| EntityManager.tenantId := Tenant.id tenant |} em1)
          end
      end.

End TenantInterceptor.

(** ** Entity lifecycle subscribers (src/tenants/subscribers) *)

Module TenantAwareSubscriber.

(** The configured classes without the user class. *)
Definition getSubscribedEntities (tenantConfigService : TenantConfig.t)
    : list EntityName :=
  List.filter (fun entity => negb (bool_decide (entity = UserEntity)))
              (TenantConfig.entities tenantConfigService).

(** [args.entity.tenant = this.cls.get('tenant')]. *)
Definition beforeCreate (cls : ClsService.store) (entity : AnyEntity)
    : result AnyEntity :=
  Ok (setTenant (ClsService.get cls "tenant") entity).

End TenantAwareSubscriber.

Module TenantSubscriber.

Definition getSubscribedEntities : list EntityName := [TenantEntity].

(** [args.entity.domain = args.entity.domain + '.' + domain]. *)
Definition beforeCreate (tenantConfigService : TenantConfig.t)
    (entity : Tenant.t) : result Tenant.t :=
  Ok {| Tenant.id := Tenant.id entity;
        Tenant.domain :=
          Js.concatUndefined (Tenant.domain entity ++ Js.lit ".")
                             (TenantConfig.domain tenantConfigService);
        Tenant.isActive := Tenant.isActive entity |}.

End TenantSubscriber.

Module EventManager.

(** A subscriber hears the events of the classes it names, and of every
    class when it names none. *)
Definition listens (entities : list EntityName) (entity : AnyEntity) : bool :=
  bool_decide (entities = []) || bool_decide (constructorName entity ∈ entities).

(** The before-create event of one new entity, sent to both subscribers
    in the order the tenant module provides them. *)
Definition dispatchBeforeCreate (tenantConfigService : TenantConfig.t)
    (cls : ClsService.store) (entity : AnyEntity) : result AnyEntity :=
  e1 ← (if listens (TenantAwareSubscriber.getSubscribedEntities tenantConfigService) entity
        then TenantAwareSubscriber.beforeCreate cls entity
        else Ok entity);
  match e1 with
  | ETenant t =>
      if listens TenantSubscriber.getSubscribedEntities e1
      then t' ← TenantSubscriber.beforeCreate tenantConfigService t; Ok (ETenant t')
      else Ok e1
  | _ => Ok e1
  end.

End EventManager.

(** ** Request lifecycle (NestJS) *)

Module Nest.

(** One request to a route, taken after the authentication guard has
    attached the user.  Guards run before interceptors (the interceptor
    relies on it: the user it reads is the one the authentication guard
    attached): the route's policies guard, where [@UseGuards(PoliciesGuard)]
    declares it, runs first, and a guard that answers false ends the request
    with [ForbiddenException]; then the global tenant interceptor; then the
    route handler, on the session the interceptor hands over. *)
Definition handleRequest {A} (tenantConfigService : TenantConfig.t)
    (useGuards : bool) (context : ExecutionContext.t)
    (em : EntityManager.t) (handler : EntityManager.t -> result A)
    : result A :=
  allowed ← (if useGuards then PoliciesGuard.canActivate context else Ok true);
  if allowed : bool then
    em' ← TenantInterceptor.intercept tenantConfigService context em;
    handler em'
  else Throw (ForbiddenException "Forbidden resource").

End Nest.

(** ** Seed data (src/database/migrations) *)

Module Seed.

Definition permission (id : Z) (name action subject : string) : Permission.t :=
  {| Permission.id := id; Permission.name := Js.lit name;
     Permission.action := Some (Js.lit action);
     Permission.subject := Some (Js.lit subject) |}.

Definition create_user := permission 1 "create:user" "create" "User".
Definition read_user := permission 2 "read:user" "read" "User".
Definition update_user := permission 3 "update:user" "update" "User".
Definition delete_user := permission 4 "delete:user" "delete" "User".
Definition create_organization :=
  permission 5 "create:organization" "create" "Organization".
Definition read_organization :=
  permission 6 "read:organization" "read" "Organization".
Definition update_organization :=
  permission 7 "update:organization" "update" "Organization".
Definition delete_organization :=
  permission 8 "delete:organization" "delete" "Organization".

Definition admin : Role.t :=
  {| Role.id := 1; Role.name := Js.lit "admin";
     Role.permissions :=
       Initialized [create_user; read_user; update_user; delete_user;
                    create_organization; read_organization;
                    update_organization; delete_organization] |}.

Definition user : Role.t :=
  {| Role.id := 2; Role.name := Js.lit "user";
     Role.permissions := Initialized [read_user; read_organization] |}.

End Seed.

(** The route [GET /users/:id]: guarded by [PoliciesGuard] with
    [@CheckPolicies(new ReadUserPolicyHandler())]. *)
Module UsersController.
Definition findOne_metadata : Metadata.t :=
  {| Metadata.isPublic := None; Metadata.skipTenant := None;
     Metadata.checkPolicy := Some [IPolicyHandler ReadUserPolicy.handle] |}.

End UsersController.

(** ** Vocabulary of the statements *)

(** The ability the factory builds from a list of permissions. *)
Definition abilityOf (ps : list Permission.t) : Casl.Ability :=
  Casl.createMongoAbility (List.map CaslAbilityFactory.toRule ps).

(** A request that is neither public nor exempt from tenant scoping: the
    two tests that open [intercept] both fail. *)
Definition scoped (context : ExecutionContext.t) : Prop :=
  truthy (Reflector.getAllAndOverride Metadata.isPublic
            [ExecutionContext.getHandler context;
             ExecutionContext.getClass context]) = false
  /\ truthy (Reflector.getAllAndOverride Metadata.skipTenant
               [ExecutionContext.getHandler context;
                ExecutionContext.getClass context]) = false.

(** The session [intercept] hands over for a principal of tenant [t]. *)
Definition installed (cfg : TenantConfig.t) (t : Tenant.t) (em : EntityManager.t)
    : EntityManager.t :=
  EntityManager.setFilterParams "tenant"
    {| EntityManager.tenantId := Tenant.id t |}
    (EntityManager.addFilter "tenant"
       (fun args => {| EntityManager.tenant := EntityManager.tenantId args |})
       (TenantConfig.entities cfg) em).

(** Every filter registered for class [E] has its parameters. *)
Definition parameterised (em : EntityManager.t) (E : EntityName) : Prop :=
  forall name f,
    EntityManager.filters em !! name = Some f ->
    In E (EntityManager.entity f) ->
    is_Some (EntityManager.filterParams em !! name).



(** ** Sample data *)

(** Two tenants. *)
Definition acme : Tenant.t :=
  {| Tenant.id := 1; Tenant.domain := Js.lit "acme.example.com";
     Tenant.isActive := true |}.

Definition globex : Tenant.t :=
  {| Tenant.id := 2; Tenant.domain := Js.lit "globex.example.com";
     Tenant.isActive := true |}.

(** Permissions and roles beside the seeded ones. *)
Definition manage_organization : Permission.t :=
  Seed.permission 9 "manage:organization" "manage" "Organization".

Definition readOwn_user : Permission.t :=
  Seed.permission 10 "readOwn:user" "readOwn" "User".

Definition manage_all : Permission.t :=
  Seed.permission 11 "manage:all" "manage" "all".

Definition readAny_user : Permission.t :=
  Seed.permission 12 "readAny:user" "readAny" "User".

Definition manager : Role.t :=
  {| Role.id := 3; Role.name := Js.lit "manager";
     Role.permissions := Initialized [manage_organization; readOwn_user] |}.

Definition member : Role.t :=
  {| Role.id := 4; Role.name := Js.lit "member";
     Role.permissions := Initialized [readOwn_user; Seed.read_organization] |}.

Definition auditor : Role.t :=
  {| Role.id := 5; Role.name := Js.lit "auditor";
     Role.permissions := Initialized [readAny_user] |}.

(** Users: five of tenant [acme], one of tenant [globex]. *)
Definition alice : User.t :=
  {| User.id := 5; User.username := Js.lit "alice";
     User.email := Js.lit "alice@acme.example.com";
     User.password := Js.lit "$2b$10$hash";
     User.role := Some member; User.tenant := Some acme |}.

Definition bob : User.t :=
  {| User.id := 7; User.username := Js.lit "bob";
     User.email := Js.lit "bob@globex.example.com";
     User.password := Js.lit "$2b$10$hash";
     User.role := Some Seed.user; User.tenant := Some globex |}.

Definition carol : User.t :=
  {| User.id := 9; User.username := Js.lit "carol";
     User.email := Js.lit "carol@acme.example.com";
     User.password := Js.lit "$2b$10$hash";
     User.role := Some manager; User.tenant := Some acme |}.

Definition dan : User.t :=
  {| User.id := 11; User.username := Js.lit "dan";
     User.email := Js.lit "dan@acme.example.com";
     User.password := Js.lit "$2b$10$hash";
     User.role := Some Seed.user; User.tenant := Some acme |}.


Definition grace : User.t :=
  {| User.id := 13; User.username := Js.lit "grace";
     User.email := Js.lit "grace@acme.example.com";
     User.password := Js.lit "$2b$10$hash";
     User.role := Some auditor; User.tenant := Some acme |}.

(** An organization, owned by whoever [owner] is. *)
Definition sales (owner : option Tenant.t) : Organization.t :=
  {| Organization.id := 3; Organization.tenant := owner;
     Organization.name := Js.lit "Sales"; Organization.description := None |}.

(** A request with path parameter [id], and its execution context on a
    handler with the given metadata, in a controller without metadata. *)
Definition requestOf (user : option User.t) (id : string) : Request.t :=
  {| Request.user := user; Request.params := {| Request.id := Js.lit id |} |}.

Definition contextOf (handler : Metadata.t) (user : option User.t)
    (id : string) : ExecutionContext.t :=
  {| ExecutionContext.getHandler := handler;
     ExecutionContext.getClass := Metadata.none;
     ExecutionContext.getRequest := requestOf user id |}.

(** Handler metadata that declares the given policies and nothing else. *)
Definition checkPolicies (handlers : list PolicyHandler) : Metadata.t :=
  {| Metadata.isPublic := None; Metadata.skipTenant := None;
     Metadata.checkPolicy := Some handlers |}.

(** ** Further data access: conditions, inserts, updates and removals *)

(** Roles are mapped too; they have no [tenant] column. *)
#[global] Instance Role_Entity : Entity Role.t := {
  entityName := RoleEntity;
  primaryKey := Role.id;
  tenantKey _ := None
}.

Module Repository.

(** [em.find(Class, where)]: the rows that satisfy the condition and
    every filter condition, in table order. *)
Definition find `{Entity A} (em : EntityManager.t) (table : list A)
    (where_ : A -> bool) : result (list A) :=
  conds ← EntityManager.applyFilters em entityName;
  Ok (List.filter
        (fun row => where_ row
                    && forallb (fun w => EntityManager.satisfies w row) conds)
        table).

(** [repo.findAll()]: [find] with the empty condition. *)
Definition findAll `{Entity A} (em : EntityManager.t) (table : list A)
    : result (list A) :=
  find em table (fun _ => true).

(** [repo.findOne(where)] for a condition that is not a key. *)
Definition findOneWhere `{Entity A} (em : EntityManager.t) (table : list A)
    (where_ : A -> bool) : result (option A) :=
  conds ← EntityManager.applyFilters em entityName;
  Ok (List.find
        (fun row => where_ row
                    && forallb (fun w => EntityManager.satisfies w row) conds)
        table).

End Repository.

(** The tables behind the repositories. *)
Module Database.
Record t := {
  users : list User.t;
  organizations : list Organization.t;
  tenants : list Tenant.t;
  roles : list Role.t;
  permissions : list Permission.t
}.
End Database.

(** A role as a read without [populate] returns it: its permission
    collection is there and not loaded. *)
Definition unpopulated (r : Role.t) : Role.t :=
  {| Role.id := Role.id r; Role.name := Role.name r;
     Role.permissions := Uninitialized |}.

Module UnitOfWork.

(** The to-one references that are not nullable must be set when a new
    entity is written. *)
Definition validateRequired (e : AnyEntity) : result unit :=
  match e with
  | EOrganization o =>
      match Organization.tenant o with
      | None => Throw (Error "Value for Organization.tenant is required, 'undefined' found")
      | Some _ => Ok tt
      end
  | EUser u =>
      match User.role u, User.tenant u with
      | None, _ => Throw (Error "Value for User.role is required, 'undefined' found")
      | _, None => Throw (Error "Value for User.tenant is required, 'undefined' found")
      | Some _, Some _ => Ok tt
      end
  | _ => Ok tt
  end.

(** The row a user is written as.  The row holds the key of the user's
    role, and the users table keeps each user with the role row of that
    key: what was loaded of the role in memory is no part of the row.  A
    key that names no role has no row to go with. *)
Definition userRow (u : User.t) (db : Database.t) : option User.t :=
  role ← User.role u;
  stored ← List.find (fun r => Role.id r =? Role.id role) (Database.roles db);
  Some {| User.id := User.id u; User.username := User.username u;
          User.email := User.email u; User.password := User.password u;
          User.role := Some stored; User.tenant := User.tenant u |}.

(** The insert statement of one new row; the columns declared unique
    ([User.username], [User.email], [Tenant.domain], [Role.name],
    [Permission.name]) reject a value another row holds, and the role
    column of a user rejects a key that names no role. *)
Definition insert (e : AnyEntity) (db : Database.t) : result Database.t :=
  let unique (taken : bool) (db' : Database.t) : result Database.t :=
    if taken then Throw (Error "UniqueConstraintViolationException") else Ok db' in
  match e with
  | EUser u =>
      match userRow u db with
      | None => Throw (Error "ForeignKeyConstraintViolationException")
      | Some row =>
          unique
            (existsb (fun r => bool_decide (User.username r = User.username row)
                               || bool_decide (User.email r = User.email row))
                     (Database.users db))
            {| Database.users := Database.users db ++ [row];
               Database.organizations := Database.organizations db;
               Database.tenants := Database.tenants db;
               Database.roles := Database.roles db;
               Database.permissions := Database.permissions db |}
      end
  | EOrganization o =>
      Ok {| Database.users := Database.users db;
            Database.organizations := Database.organizations db ++ [o];
            Database.tenants := Database.tenants db;
            Database.roles := Database.roles db;
            Database.permissions := Database.permissions db |}
  | ETenant t =>
      unique
        (existsb (fun r => bool_decide (Tenant.domain r = Tenant.domain t))
                 (Database.tenants db))
        {| Database.users := Database.users db;
           Database.organizations := Database.organizations db;
           Database.tenants := Database.tenants db ++ [t];
           Database.roles := Database.roles db;
           Database.permissions := Database.permissions db |}
  | ERole r =>
      unique
        (existsb (fun r' => bool_decide (Role.name r' = Role.name r))
                 (Database.roles db))
        {| Database.users := Database.users db;
           Database.organizations := Database.organizations db;
           Database.tenants := Database.tenants db;
           Database.roles := Database.roles db ++ [r];
           Database.permissions := Database.permissions db |}
  | EPermission p =>
      unique
        (existsb (fun p' => bool_decide (Permission.name p' = Permission.name p))
                 (Database.permissions db))
        {| Database.users := Database.users db;
           Database.organizations := Database.organizations db;
           Database.tenants := Database.tenants db;
           Database.roles := Database.roles db;
           Database.permissions := Database.permissions db ++ [p] |}
  end.

(** Flushing one new entity: the before-create event, the check of the
    required references, the insert.  The entity carries the key the
    database generates for it. *)
Definition persistNew (tenantConfigService : TenantConfig.t)
    (cls : ClsService.store) (e : AnyEntity) (db : Database.t)
    : result (AnyEntity * Database.t) :=
  e' ← EventManager.dispatchBeforeCreate tenantConfigService cls e;
  _ ← validateRequired e';
  db' ← insert e' db;
  Ok (e', db').

(** Flushing a changed row, and a removed one, by primary key. *)
Definition updateRow `{Entity A} (row' : A) (table : list A) : list A :=
  List.map (fun row => if primaryKey row =? primaryKey row' then row' else row)
           table.

Definition removeRow `{Entity A} (row' : A) (table : list A) : list A :=
  List.filter (fun row => negb (primaryKey row =? primaryKey row')) table.

End UnitOfWork.

(** ** Organizations service: create, findAll, update, remove *)

Module CreateOrganizationDto.
Record t := {
  name : Js.jsstring;
  description : option Js.jsstring
}.
End CreateOrganizationDto.

(** [PartialType(CreateOrganizationDto)]: every property optional. *)
Module UpdateOrganizationDto.
Record t := {
  name : option Js.jsstring;
  description : option Js.jsstring
}.
End UpdateOrganizationDto.

Module OrganizationsCrud.

(** [repo.create({...dto})], then [em.flush()]; an error is logged and
    thrown again. *)
Definition create (tenantConfigService : TenantConfig.t)
    (cls : ClsService.store) (generatedId : Z) (db : Database.t)
    (createOrganizationDto : CreateOrganizationDto.t)
    : result (AnyEntity * Database.t) :=
  let organization :=
    {| Organization.id := generatedId;
       Organization.tenant := None;
       Organization.name := CreateOrganizationDto.name createOrganizationDto;
       Organization.description :=
         CreateOrganizationDto.description createOrganizationDto |} in
  UnitOfWork.persistNew tenantConfigService cls (EOrganization organization) db.

Definition findAll (em : EntityManager.t) (repo : list Organization.t)
    : result (list Organization.t) :=
  Repository.findAll em repo.

(** [repo.assign(organization, dto)]: the properties the dto holds. *)
Definition assign (organization : Organization.t)
    (updateOrganizationDto : UpdateOrganizationDto.t) : Organization.t :=
  {| Organization.id := Organization.id organization;
     Organization.tenant := Organization.tenant organization;
     Organization.name :=
       default (Organization.name organization)
               (UpdateOrganizationDto.name updateOrganizationDto);
     Organization.description :=
       match UpdateOrganizationDto.description updateOrganizationDto with
       | Some d => Some d
       | None => Organization.description organization
       end |}.

Definition update (em : EntityManager.t) (repo : list Organization.t)
    (id : Z) (updateOrganizationDto : UpdateOrganizationDto.t)
    : result (Organization.t * list Organization.t) :=
  organization ← EntityRepository.findOne em repo id None;
  match organization with
  | None => Throw (BadRequestException "未找到指定的组织")
  | Some o =>
      let o' := assign o updateOrganizationDto in
      Ok (o', UnitOfWork.updateRow o' repo)
  end.

Definition remove (em : EntityManager.t) (repo : list Organization.t)
    (id : Z) : result (Organization.t * list Organization.t) :=
  organization ← EntityRepository.findOne em repo id None;
  match organization with
  | None => Throw (BadRequestException "未找到指定的组织")
  | Some o => Ok (o, UnitOfWork.removeRow o repo)
  end.

End OrganizationsCrud.

(** ** Users service and authentication service *)

Module CreateUserDto.
Record t := {
  username : Js.jsstring;
  email : Js.jsstring;
  password : Js.jsstring;
  domain : Js.jsstring
}.
End CreateUserDto.

(** The tenant object an entity is, when it is one. *)
Definition asTenant (e : AnyEntity) : option Tenant.t :=
  match e with
  | ETenant t => Some t
  | _ => None
  end.

Module UsersCrud.

(** [roleRepo.findOne({ name: 'user' })]: no [populate], so the role comes
    without its permissions loaded. *)
Definition defaultRole (em : EntityManager.t) (roles : list Role.t)
    : result (option Role.t) :=
  role ← Repository.findOneWhere em roles
            (fun r => bool_decide (Role.name r = Js.lit "user"));
  match role with
  | Some r => Ok (Some (unpopulated r))
  | None => Ok None
  end.

(** [create]: the default role, the hashed password, a new tenant made of
    the dto's domain, the new user; one flush writes the tenant and then
    the user.  [hash] is [bcrypt.hash(_, 10)]; the two keys are the ones the
    database generates.  What is returned is the user entity as it is in
    memory: its role is the one [defaultRole] read. *)
Definition create (tenantConfigService : TenantConfig.t)
    (cls : ClsService.store) (hash : Js.jsstring -> Js.jsstring)
    (em : EntityManager.t) (tenantId userId : Z) (db : Database.t)
    (createUserDto : CreateUserDto.t) : result (AnyEntity * Database.t) :=
  role ← defaultRole em (Database.roles db);
  let hashedPassword := hash (CreateUserDto.password createUserDto) in
  match role with
  | None => Throw (InternalServerErrorException "默认角色不存在")
  | Some r =>
      let tenant :=
        {| Tenant.id := tenantId;
           Tenant.domain := CreateUserDto.domain createUserDto;
           Tenant.isActive := true |} in
      written ← UnitOfWork.persistNew tenantConfigService cls (ETenant tenant) db;
      let user :=
        {| User.id := userId;
           User.username := CreateUserDto.username createUserDto;
           User.email := CreateUserDto.email createUserDto;
           User.password := hashedPassword;
           User.role := Some r;
           User.tenant := asTenant written.1 |} in
      UnitOfWork.persistNew tenantConfigService cls (EUser user) written.2
  end.

Definition findAll (em : EntityManager.t) (repo : list User.t)
    : result (list User.t) :=
  Repository.findAll em repo.

(** [repo.findOne({ username }, options)]. *)
Definition findOneWithUsername (em : EntityManager.t) (repo : list User.t)
    (username : Js.jsstring) (options : option FindOneOptions)
    : result (option User.t) :=
  Repository.findOneWhere em repo
    (fun u => bool_decide (User.username u = username)).

End UsersCrud.

Module AuthService.

(** [validateUser]; [compare] is [bcrypt.compare]. *)
Definition validateUser (compare : Js.jsstring -> Js.jsstring -> bool)
    (em : EntityManager.t) (users : list User.t)
    (username pass : Js.jsstring) : result User.t :=
  user ← UsersCrud.findOneWithUsername em users username
            (Some {| populate := ["role"; "role.permissions"];
                     disableIdentityMap := false |});
  match user with
  | None => Throw (BadRequestException "用户不存在")
  | Some u =>
      if compare pass (User.password u) then Ok u
      else Throw (UnauthorizedException "密码错误")
  end.

(** The payload [login] and [register] sign into the access token. *)
Record Payload := {
  username : Js.jsstring;
  sub : Z
}.

Definition payloadOf (user : User.t) : Payload :=
  {| username := User.username user; sub := User.id user |}.

End AuthService.

(** ** Uniqueness validator (src/common/validators/is-unique.validator.ts) *)

Module IsUnique.

Record ValidationArguments := {
  constraints : list string;
  property : string
}.

(** [validate(value, args)].  [args.constraints] names a class and one of
    its string properties, as the dto decorators write them; the
    repository and the property the two names resolve to are [table] and
    [column].  Without [args], [args?.constraints] is undefined and the
    destructuring of it throws a [TypeError] (the message is V8's). *)
Definition validate `{Entity A} (em : EntityManager.t) (table : list A)
    (column : A -> option Js.jsstring) (value : Js.jsstring)
    (args : option ValidationArguments) : result bool :=
  match args with
  | None =>
      Throw (TypeError
               "undefined is not iterable (cannot read property Symbol(Symbol.iterator))")
  | Some _ =>
      dataExist ← Repository.findOneWhere em table
                     (fun row => bool_decide (column row = Some value));
      Ok (negb (bool_decide (is_Some dataExist)))
  end.

End IsUnique.

(** ** Users service: update and remove *)

(** [PartialType(CreateUserDto)]: every property optional. *)
Module UpdateUserDto.
Record t := {
  username : option Js.jsstring;
  email : option Js.jsstring;
  password : option Js.jsstring;
  domain : option Js.jsstring
}.
End UpdateUserDto.

Module UsersWrites.

(** [repo.assign(user, dto)]: the properties the dto holds, as they are;
    [domain] is no property of a user and reaches no column. *)
Definition assign (user : User.t) (updateUserDto : UpdateUserDto.t) : User.t :=
  {| User.id := User.id user;
     User.username :=
       default (User.username user) (UpdateUserDto.username updateUserDto);
     User.email := default (User.email user) (UpdateUserDto.email updateUserDto);
     User.password :=
       default (User.password user) (UpdateUserDto.password updateUserDto);
     User.role := User.role user;
     User.tenant := User.tenant user |}.

(** [update]: the flush rejects a name or email another row holds. *)
Definition update (em : EntityManager.t) (repo : list User.t) (id : Z)
    (updateUserDto : UpdateUserDto.t) : result (User.t * list User.t) :=
  user ← EntityRepository.findOne em repo id None;
  match user with
  | None => Throw (BadRequestException "用户不存在")
  | Some u =>
      let u' := assign u updateUserDto in
      if existsb (fun r => negb (User.id r =? User.id u')
                           && (bool_decide (User.username r = User.username u')
                               || bool_decide (User.email r = User.email u')))
                 repo
      then Throw (Error "UniqueConstraintViolationException")
      else Ok (u', UnitOfWork.updateRow u' repo)
  end.

Definition remove (em : EntityManager.t) (repo : list User.t) (id : Z)
    : result (User.t * list User.t) :=
  user ← EntityRepository.findOne em repo id None;
  match user with
  | None => Throw (BadRequestException "用户不存在")
  | Some u => Ok (u, UnitOfWork.removeRow u repo)
  end.

End UsersWrites.

(** ** Further vocabulary *)

(** A row of tenant [t]. *)
Definition ownedBy `{Entity A} (t : Tenant.t) (row : A) : bool :=
  bool_decide (tenantKey row = Some (Tenant.id t)).

(** Primary keys identify rows. *)
Definition uniqueKeys `{Entity A} (table : list A) : Prop :=
  forall row row', In row table -> In row' table ->
                   primaryKey row = primaryKey row' -> row = row'.

(** A database without rows. *)
Definition emptyDatabase : Database.t :=
  {| Database.users := []; Database.organizations := [];
     Database.tenants := []; Database.roles := [];
     Database.permissions := [] |}.

(** The sessions a request reaches a route handler with: untouched (a
    public or skip-tenant route), or with the tenant filter of the
    principal's tenant installed. *)
Definition requestSession (TENANT_DOMAIN : option Js.jsstring)
    (em : EntityManager.t) : Prop :=
  em = EntityManager.fresh
  \/ exists t, em = installed (tenantConfig TENANT_DOMAIN) t EntityManager.fresh.

(** A registration, and a database that holds the seeded roles only. *)
Definition erin : CreateUserDto.t :=
  {| CreateUserDto.username := Js.lit "erin";
     CreateUserDto.email := Js.lit "erin@initech.example.com";
     CreateUserDto.password := Js.lit "secret1";
     CreateUserDto.domain := Js.lit "initech" |}.

Definition seededDatabase : Database.t :=
  {| Database.users := []; Database.organizations := [];
     Database.tenants := []; Database.roles := [Seed.admin; Seed.user];
     Database.permissions := [] |}.

(** * Properties *)

(** ** Sanity checks on the sample data *)

Example parseInt_5abc : Js.parseInt (Js.lit "5abc") = Js.Num 5.
Proof. reflexivity. Qed.

Example parseInt_hex : Js.parseInt (Js.lit "0x1F") = Js.Num 31.
Proof. reflexivity. Qed.

Example parseInt_abc : Js.parseInt (Js.lit "abc") = Js.NaN.
Proof. reflexivity. Qed.

Example toString_minus_120 : Js.toString (-120) = Js.lit "-120".
Proof. reflexivity. Qed.

Example subscribed_entities :
  TenantAwareSubscriber.getSubscribedEntities (tenantConfig None)
  = [OrganizationEntity].
Proof. reflexivity. Qed.

Example seeded_user_cannot_readOwn :
  Casl.can (abilityOf [Seed.read_user; Seed.read_organization])
    Actions.ReadOwn Subjects.User = false.
Proof. vm_compute. reflexivity. Qed.

Example manager_can_delete_organization :
  Casl.can (abilityOf [manage_organization; readOwn_user])
    Actions.Delete Subjects.Organization = true.
Proof. vm_compute. reflexivity. Qed.

(** ** Results and iteration *)

Lemma bind_Ok {A B} (r : result A) (k : A -> result B) (b : B) :
  r ≫= k = Ok b <-> exists a, r = Ok a /\ k a = Ok b.
Proof.
  destruct r as [a|e]; simpl.
  - split; [eauto | intros (a' & [= <-] & Hk); exact Hk].
  - split; [discriminate | intros (a' & [=] & _)].
Qed.

Lemma every_true {A} (f : A -> result bool) (l : list A) :
  every f l = Ok true <-> forall x, In x l -> f x = Ok true.
Proof.
  induction l as [|x l IH]; simpl.
  - split; [intros _ y [] | reflexivity].
  - destruct (f x) as [[|]|e] eqn:Hfx; simpl.
    + rewrite IH. split.
      * intros Hl y [<-|Hy]; [exact Hfx | exact (Hl y Hy)].
      * intros Hl y Hy. apply Hl. right. exact Hy.
    + split; [discriminate|]. intros Hl.
      specialize (Hl x (or_introl eq_refl)). congruence.
    + split; [discriminate|]. intros Hl.
      specialize (Hl x (or_introl eq_refl)). congruence.
Qed.

Lemma every_returns {A} (f : A -> result bool) (l : list A) :
  (forall x, In x l -> exists b, f x = Ok b) -> exists b, every f l = Ok b.
Proof.
  induction l as [|x l IH]; simpl; intros Hall; [eauto|].
  destruct (Hall x (or_introl eq_refl)) as [b ->]. simpl.
  destruct b; [|eauto]. apply IH. intros y Hy. apply Hall. right. exact Hy.
Qed.

Lemma every_false {A} (f : A -> result bool) (l : list A) :
  every f l = Ok false <->
  exists before x after,
    l = before ++ x :: after
    /\ (forall y, In y before -> f y = Ok true)
    /\ f x = Ok false.
Proof.
  induction l as [|x l IH]; simpl.
  - split; [discriminate|]. intros (before & y & after & Heq & _).
    destruct before; discriminate Heq.
  - destruct (f x) as [[|]|e] eqn:Hfx; simpl.
    + rewrite IH. split.
      * intros (before & y & after & -> & Hbefore & Hy).
        exists (x :: before), y, after. split; [reflexivity|].
        split; [|exact Hy]. intros z [<-|Hz]; [exact Hfx | exact (Hbefore z Hz)].
      * intros (before & y & after & Heq & Hbefore & Hy).
        destruct before as [|x' before]; simpl in Heq; injection Heq as <- ->.
        -- congruence.
        -- exists before, y, after. split; [reflexivity|].
           split; [|exact Hy]. intros z Hz. apply Hbefore. right. exact Hz.
    + split; [|reflexivity]. intros _.
      exists [], x, l. split; [reflexivity|]. split; [intros y []|exact Hfx].
    + split; [discriminate|].
      intros (before & y & after & Heq & Hbefore & Hy).
      destruct before as [|x' before]; simpl in Heq; injection Heq as <- ->.
      * congruence.
      * specialize (Hbefore x (or_introl eq_refl)). congruence.
Qed.

(** ** Tenant domain normalization *)

(** C4: when a root domain is configured, the normalization hook replaces a
    new tenant's domain by the raw label, a dot and the root domain, and
    leaves the other fields alone; this is what the before-create event of
    a tenant entity produces under every configuration of tenant-owned
    classes.  Label [acme] under root [example.com] gives
    [acme.example.com]. *)
Theorem C4_domain_normalized :
  forall (cfg : TenantConfig.t) (cls : ClsService.store)
         (root : Js.jsstring) (t : Tenant.t),
    TenantConfig.domain cfg = Some root ->
    let t' := {| Tenant.id := Tenant.id t;
                 Tenant.domain := Tenant.domain t ++ Js.lit "." ++ root;
                 Tenant.isActive := Tenant.isActive t |} in
    TenantSubscriber.beforeCreate cfg t = Ok t'
    /\ EventManager.dispatchBeforeCreate cfg cls (ETenant t) = Ok (ETenant t')
    /\ (Tenant.domain t = Js.lit "acme" -> root = Js.lit "example.com" ->
        Tenant.domain t' = Js.lit "acme.example.com").
Proof.
  intros cfg cls root t Hroot t'.
  assert (Hhook : TenantSubscriber.beforeCreate cfg t = Ok t').
  { unfold TenantSubscriber.beforeCreate, Js.concatUndefined, t'.
    rewrite Hroot. simpl. rewrite <- app_assoc. reflexivity. }
  split; [exact Hhook|]. split.
  - unfold EventManager.dispatchBeforeCreate.
    unfold TenantAwareSubscriber.beforeCreate.
    destruct (EventManager.listens _ (ETenant t));
      cbn -[TenantSubscriber.beforeCreate]; rewrite Hhook; reflexivity.
  - intros Hl Hr. subst t'. simpl. rewrite Hl, Hr. reflexivity.
Qed.

Lemma C4_domain_normalized_witness :
  TenantSubscriber.beforeCreate (tenantConfig (Some (Js.lit "example.com")))
    {| Tenant.id := 1; Tenant.domain := Js.lit "acme"; Tenant.isActive := true |}
  = Ok {| Tenant.id := 1; Tenant.domain := Js.lit "acme.example.com";
          Tenant.isActive := true |}.
Proof.
  exact (proj1 (C4_domain_normalized
                  (tenantConfig (Some (Js.lit "example.com"))) ∅
                  (Js.lit "example.com")
                  {| Tenant.id := 1; Tenant.domain := Js.lit "acme";
                     Tenant.isActive := true |}
                  eq_refl)).
Defined.

(** ** Tenant stamping *)

Lemma setTenant_getTenant (v : option Tenant.t) (e : AnyEntity) :
  constructorName e = UserEntity \/ constructorName e = OrganizationEntity ->
  getTenant (setTenant v e) = v.
Proof. destruct e; simpl; intros [H|H]; congruence. Qed.

Lemma validate_store em users cls sub principal cls' :
  JwtStrategy.validate em users cls sub = Ok (Some principal, cls') ->
  ClsService.get cls' "tenant" = User.tenant principal.
Proof.
  unfold JwtStrategy.validate. intros H.
  apply bind_Ok in H as (found & _ & H).
  destruct found as [u|]; [|discriminate].
  injection H as -> <-.
  unfold ClsService.get, ClsService.set.
  destruct (User.tenant principal) as [t|].
  - apply lookup_insert_eq.
  - apply lookup_delete_eq.
Qed.

(** C2: in a request whose principal was resolved by the JWT strategy, the
    before-create event of any entity of a configured tenant-owned class
    other than the user class returns that entity with its tenant replaced
    by the tenant in the request context store, which is the principal's
    tenant, whatever tenant the entity carried before. *)
Theorem C2_tenant_stamped :
  forall (TENANT_DOMAIN : option Js.jsstring) (em : EntityManager.t)
         (users : list User.t) (cls cls' : ClsService.store) (sub : Z)
         (principal : User.t) (entity : AnyEntity),
    JwtStrategy.validate em users cls sub = Ok (Some principal, cls') ->
    In (constructorName entity)
       (TenantConfig.entities (tenantConfig TENANT_DOMAIN)) ->
    constructorName entity <> UserEntity ->
    In (constructorName entity)
       (TenantAwareSubscriber.getSubscribedEntities (tenantConfig TENANT_DOMAIN))
    /\ EventManager.dispatchBeforeCreate (tenantConfig TENANT_DOMAIN) cls' entity
       = Ok (setTenant (ClsService.get cls' "tenant") entity)
    /\ getTenant (setTenant (ClsService.get cls' "tenant") entity)
       = User.tenant principal.
Proof.
  intros D em users cls cls' sub principal entity Hval Hin Hne.
  assert (Horg : constructorName entity = OrganizationEntity).
  { simpl in Hin. destruct Hin as [H|[H|[]]]; congruence. }
  split; [|split].
  - rewrite Horg. simpl. auto.
  - destruct entity; try discriminate Horg. reflexivity.
  - rewrite setTenant_getTenant by auto.
    eapply validate_store; eassumption.
Qed.

Lemma C2_tenant_stamped_witness :
  EventManager.dispatchBeforeCreate (tenantConfig None)
    (ClsService.set ∅ "tenant" (Some acme)) (EOrganization (sales (Some globex)))
  = Ok (EOrganization (sales (Some acme))).
Proof.
  refine (eq_trans
            (proj1 (proj2 (C2_tenant_stamped None EntityManager.fresh [alice; bob]
                             ∅ (ClsService.set ∅ "tenant" (Some acme)) 5 alice
                             (EOrganization (sales (Some globex))) _ _ _))) _).
  - vm_compute. reflexivity.
  - simpl. auto.
  - discriminate.
  - vm_compute. reflexivity.
Defined.

(** With no tenant in the request context store, the flush of a new
    organization fails on the organization's required tenant. *)
Lemma persist_without_tenant (D : option Js.jsstring) (cls : ClsService.store)
    (o : Organization.t) (db : Database.t) :
  ClsService.get cls "tenant" = None ->
  exists message,
    UnitOfWork.validateRequired (setTenant None (EOrganization o))
    = Throw (Error message)
    /\ UnitOfWork.persistNew (tenantConfig D) cls (EOrganization o) db
       = Throw (Error message).
Proof.
  intros Hnone.
  unfold UnitOfWork.persistNew, EventManager.dispatchBeforeCreate,
    TenantAwareSubscriber.beforeCreate.
  rewrite Hnone. simpl. eauto.
Qed.

(** C3 (as amended): when the request context store holds no tenant, the
    stamping hook does not fail: it returns the entity with its tenant set
    to undefined, whatever tenant the entity carried before, and so does
    the before-create event of an organization.  The organization is still
    not persisted with an absent tenant: the check of the required
    references, which the flush runs after the hook, throws an error that
    is no HTTP exception, so the flush, and [create] of the organizations
    service with it, throws and writes nothing. *)
Theorem C3_stamping_without_tenant :
  forall (TENANT_DOMAIN : option Js.jsstring) (cls : ClsService.store)
         (entity : AnyEntity) (o : Organization.t) (generatedId : Z)
         (db : Database.t) (dto : CreateOrganizationDto.t),
    ClsService.get cls "tenant" = None ->
    TenantAwareSubscriber.beforeCreate cls entity = Ok (setTenant None entity)
    /\ EventManager.dispatchBeforeCreate (tenantConfig TENANT_DOMAIN) cls
         (EOrganization o)
       = Ok (setTenant None (EOrganization o))
    /\ getTenant (setTenant None (EOrganization o)) = None
    /\ (exists message,
          UnitOfWork.validateRequired (setTenant None (EOrganization o))
          = Throw (Error message))
    /\ (exists message,
          UnitOfWork.persistNew (tenantConfig TENANT_DOMAIN) cls
            (EOrganization o) db
          = Throw (Error message))
    /\ (exists message,
          OrganizationsCrud.create (tenantConfig TENANT_DOMAIN) cls
            generatedId db dto
          = Throw (Error message)).
Proof.
  intros D cls entity o generatedId db dto Hnone.
  split; [|split; [|split; [|split; [|split]]]].
  - unfold TenantAwareSubscriber.beforeCreate. rewrite Hnone. reflexivity.
  - unfold EventManager.dispatchBeforeCreate, TenantAwareSubscriber.beforeCreate.
    rewrite Hnone. reflexivity.
  - reflexivity.
  - simpl. eauto.
  - destruct (persist_without_tenant D cls o db Hnone) as (message & _ & H).
    eauto.
  - unfold OrganizationsCrud.create.
    destruct (persist_without_tenant D cls
                {| Organization.id := generatedId;
                   Organization.tenant := None;
                   Organization.name := CreateOrganizationDto.name dto;
                   Organization.description :=
                     CreateOrganizationDto.description dto |}
                db Hnone) as (message & _ & H).
    eauto.
Qed.

Lemma C3_stamping_without_tenant_witness :
  TenantAwareSubscriber.beforeCreate ∅ (EOrganization (sales (Some globex)))
  = Ok (EOrganization (sales None))
  /\ exists message,
       OrganizationsCrud.create (tenantConfig None) ∅ 3 emptyDatabase
         {| CreateOrganizationDto.name := Js.lit "Sales";
            CreateOrganizationDto.description := None |}
       = Throw (Error message).
Proof.
  split.
  - exact (proj1 (C3_stamping_without_tenant None ∅
                    (EOrganization (sales (Some globex))) (sales None) 3
                    emptyDatabase
                    {| CreateOrganizationDto.name := Js.lit "Sales";
                       CreateOrganizationDto.description := None |}
                    eq_refl)).
  - exact (proj2 (proj2 (proj2 (proj2 (proj2
             (C3_stamping_without_tenant None ∅
                (EOrganization (sales (Some globex))) (sales None) 3
                emptyDatabase
                {| CreateOrganizationDto.name := Js.lit "Sales";
                   CreateOrganizationDto.description := None |}
                eq_refl)))))).
Defined.

(** C3, the claim as stated, fails: on an empty store the hook returns
    normally, with an organization whose tenant is undefined, where the
    claim has it throw. *)
Lemma C3_counterexample :
  EventManager.dispatchBeforeCreate (tenantConfig None) ∅
    (EOrganization (sales None))
  = Ok (EOrganization (sales None))
  /\ ~ (exists e, TenantAwareSubscriber.beforeCreate ∅ (EOrganization (sales None))
                  = Throw e).
Proof.
  split; [reflexivity|]. intros [e He]. discriminate He.
Qed.

(** ** Tenant scope filter installer *)

Lemma intercept_scoped cfg context em :
  scoped context ->
  TenantInterceptor.intercept cfg context em =
  match Request.user (ExecutionContext.getRequest context) with
  | None => Throw (InternalServerErrorException "User not found")
  | Some user =>
      match User.tenant user with
      | None => Throw (InternalServerErrorException "Tenant not found")
      | Some tenant =>
          Ok (EntityManager.setFilterParams "tenant"
                {| EntityManager.tenantId := Tenant.id tenant |}
                (EntityManager.addFilter "tenant"
                   (fun args => {| EntityManager.tenant := EntityManager.tenantId args |})
                   (TenantConfig.entities cfg) em))
      end
  end.
Proof.
  intros [Hpub Hskip]. unfold TenantInterceptor.intercept.
  rewrite Hpub, Hskip. reflexivity.
Qed.

(** C8 (as amended): on a request that is neither public nor skip-tenant,
    the interceptor throws an internal-server-error exception (status 500,
    message [User not found]) when no user is attached, and an exception of
    the same class (message [Tenant not found]) when the user has no
    tenant; otherwise it proceeds on a session whose filter [tenant] covers
    the configured classes, requires a row's tenant to be the filter
    parameter, has the principal's tenant id as that parameter, and leaves
    every other filter and parameter as it was. *)
Theorem C8_filter_installer :
  forall (cfg : TenantConfig.t) (context : ExecutionContext.t)
         (em : EntityManager.t),
    scoped context ->
    let user := Request.user (ExecutionContext.getRequest context) in
    (user = None ->
     TenantInterceptor.intercept cfg context em
     = Throw (InternalServerErrorException "User not found"))
    /\ (forall u, user = Some u -> User.tenant u = None ->
        TenantInterceptor.intercept cfg context em
        = Throw (InternalServerErrorException "Tenant not found"))
    /\ (forall u t, user = Some u -> User.tenant u = Some t ->
        exists em' f,
          TenantInterceptor.intercept cfg context em = Ok em'
          /\ EntityManager.filters em' !! "tenant" = Some f
          /\ EntityManager.entity f = TenantConfig.entities cfg
          /\ (forall args, EntityManager.tenant (EntityManager.cond f args)
                           = EntityManager.tenantId args)
          /\ EntityManager.filterParams em' !! "tenant"
             = Some {| EntityManager.tenantId := Tenant.id t |}
          /\ (forall name, name <> "tenant" ->
              EntityManager.filters em' !! name = EntityManager.filters em !! name
              /\ EntityManager.filterParams em' !! name
                 = EntityManager.filterParams em !! name)).
Proof.
  intros cfg context em Hscoped user. subst user.
  rewrite (intercept_scoped cfg context em Hscoped).
  split; [|split].
  - intros ->. reflexivity.
  - intros u -> ->. reflexivity.
  - intros u t -> ->. eexists. eexists. split; [reflexivity|]. simpl.
    split; [apply lookup_insert_eq|]. split; [reflexivity|].
    split; [reflexivity|]. split; [apply lookup_insert_eq|].
    intros name Hne. split; apply lookup_insert_ne; congruence.
Qed.

Lemma C8_filter_installer_witness :
  TenantInterceptor.intercept (tenantConfig None)
    (contextOf Metadata.none None "3") EntityManager.fresh
  = Throw (InternalServerErrorException "User not found").
Proof.
  apply (C8_filter_installer (tenantConfig None)
           (contextOf Metadata.none None "3") EntityManager.fresh).
  - split; reflexivity.
  - reflexivity.
Defined.

(** C8, the claim as stated, fails: with no user attached the interceptor
    does not throw an authentication failure; what it throws has status
    500, as the exception for a missing tenant has. *)
Lemma C8_counterexample :
  exists e,
    TenantInterceptor.intercept (tenantConfig None)
      (contextOf Metadata.none None "3") EntityManager.fresh = Throw e
    /\ getStatus e = 500
    /\ forall message, e <> UnauthorizedException message.
Proof.
  eexists. split; [reflexivity|]. split; [reflexivity|].
  intros message. discriminate.
Qed.

(** ** Policy guard *)

(** C9: the guard builds the ability before it looks at the policies, so a
    request with no user attached, with a user that has no role, or with a
    role whose permission collection is not loaded, makes the guard throw:
    it returns no boolean, whatever the declared policies are, the empty
    list included. *)
Theorem C9_guard_throws_without_principal :
  forall (context : ExecutionContext.t),
    let user := Request.user (ExecutionContext.getRequest context) in
    (user = None
     \/ (exists u, user = Some u /\ User.role u = None)
     \/ (exists u r, user = Some u /\ User.role u = Some r
                     /\ Role.permissions r = Uninitialized)) ->
    (exists e, PoliciesGuard.canActivate context = Throw e)
    /\ forall b, PoliciesGuard.canActivate context <> Ok b.
Proof.
  intros context user Hcases. subst user.
  assert (Hthrow : exists e, PoliciesGuard.canActivate context = Throw e).
  { unfold PoliciesGuard.canActivate, CaslAbilityFactory.createForUser.
    destruct Hcases as [-> | [(u & -> & ->) | (u & r & -> & -> & ->)]];
      simpl; eauto. }
  split; [exact Hthrow|].
  destruct Hthrow as [e He]. intros b. rewrite He. discriminate.
Qed.

Lemma C9_guard_throws_without_principal_witness :
  exists e,
    PoliciesGuard.canActivate
      (contextOf (checkPolicies []) None "3")
    = Throw e.
Proof.
  apply (C9_guard_throws_without_principal
           (contextOf (checkPolicies []) None "3")).
  left. reflexivity.
Defined.

(** C6: for a request whose user is attached with its role and permissions
    loaded, the guard builds the ability of that user and permits exactly
    when every declared policy returns true on the ability, the user and
    the request, a policy object through its [handle] method and a policy
    function through itself; with no declared policy it permits; it denies
    exactly when some declared policy returns false and the policies
    declared before it return true; and when no policy throws it returns a
    boolean. *)
Theorem C6_guard_conjunction :
  forall (context : ExecutionContext.t) (u : User.t) (r : Role.t)
         (ps : list Permission.t),
    let request := ExecutionContext.getRequest context in
    let handlers :=
      default [] (Metadata.checkPolicy (ExecutionContext.getHandler context)) in
    let ability := abilityOf ps in
    let returns (policy : PolicyHandler) (b : bool) : Prop :=
      match policy with
      | IPolicyHandler handle => handle ability (Some u) request = Ok b
      | Callback f => f ability (Some u) request = Ok b
      end in
    Request.user request = Some u ->
    User.role u = Some r ->
    Role.permissions r = Initialized ps ->
    (PoliciesGuard.canActivate context = Ok true <->
     forall policy, In policy handlers -> returns policy true)
    /\ (handlers = [] -> PoliciesGuard.canActivate context = Ok true)
    /\ (PoliciesGuard.canActivate context = Ok false <->
        exists before policy after,
          handlers = before ++ policy :: after
          /\ (forall earlier, In earlier before -> returns earlier true)
          /\ returns policy false)
    /\ ((forall policy, In policy handlers -> exists b, returns policy b) ->
        exists b, PoliciesGuard.canActivate context = Ok b).
Proof.
  intros context u r ps request handlers ability returns Hu Hr Hps.
  assert (Hcan : PoliciesGuard.canActivate context
                 = every (fun handler =>
                            PoliciesGuard.execPolicyHandler handler ability
                              (Some u) request) handlers).
  { unfold PoliciesGuard.canActivate, CaslAbilityFactory.createForUser.
    fold request. rewrite Hu, Hr, Hps. reflexivity. }
  assert (Hexec : forall policy b,
            PoliciesGuard.execPolicyHandler policy ability (Some u) request = Ok b
            <-> returns policy b).
  { intros [handle|f] b; reflexivity. }
  rewrite Hcan. split; [|split; [|split]].
  - rewrite every_true. split; intros Hall policy Hin; apply Hexec, Hall, Hin.
  - intros ->. reflexivity.
  - rewrite every_false. split.
    + intros (before & policy & after & Heq & Hbefore & Hpolicy).
      exists before, policy, after. split; [exact Heq|]. split.
      * intros earlier Hin. apply Hexec, Hbefore, Hin.
      * apply Hexec, Hpolicy.
    + intros (before & policy & after & Heq & Hbefore & Hpolicy).
      exists before, policy, after. split; [exact Heq|]. split.
      * intros earlier Hin. apply Hexec, Hbefore, Hin.
      * apply Hexec, Hpolicy.
  - intros Hall. apply every_returns. intros policy Hin.
    destruct (Hall policy Hin) as [b Hb]. exists b. apply Hexec, Hb.
Qed.

Lemma C6_guard_conjunction_witness :
  PoliciesGuard.canActivate
    (contextOf (checkPolicies
                 [IPolicyHandler ReadAnyOrganizationPolicyHandler.handle;
                  Callback DeleteOrganizationPolicyHandler.handle])
               (Some carol) "3")
  = Ok true
  /\ PoliciesGuard.canActivate
       (contextOf (checkPolicies
                    [Callback ReadAnyOrganizationPolicyHandler.handle;
                     IPolicyHandler DeleteOrganizationPolicyHandler.handle])
                  (Some carol) "3")
     = Ok true
  /\ PoliciesGuard.canActivate
       (contextOf (checkPolicies
                    [IPolicyHandler DeleteOrganizationPolicyHandler.handle])
                  (Some alice) "3")
     = Ok false.
Proof.
  split; [|split].
  - apply (proj1 (C6_guard_conjunction
                    (contextOf (checkPolicies
                                  [IPolicyHandler ReadAnyOrganizationPolicyHandler.handle;
                                   Callback DeleteOrganizationPolicyHandler.handle])
                               (Some carol) "3")
                    carol manager [manage_organization; readOwn_user]
                    eq_refl eq_refl eq_refl)).
    intros policy [<-|[<-|[]]]; vm_compute; reflexivity.
  - apply (proj1 (C6_guard_conjunction
                    (contextOf (checkPolicies
                                  [Callback ReadAnyOrganizationPolicyHandler.handle;
                                   IPolicyHandler DeleteOrganizationPolicyHandler.handle])
                               (Some carol) "3")
                    carol manager [manage_organization; readOwn_user]
                    eq_refl eq_refl eq_refl)).
    intros policy [<-|[<-|[]]]; vm_compute; reflexivity.
  - apply (proj1 (proj2 (proj2 (C6_guard_conjunction
                    (contextOf (checkPolicies
                                  [IPolicyHandler DeleteOrganizationPolicyHandler.handle])
                               (Some alice) "3")
                    alice member [readOwn_user; Seed.read_organization]
                    eq_refl eq_refl eq_refl)))).
    exists [], (IPolicyHandler DeleteOrganizationPolicyHandler.handle), [].
    split; [reflexivity|]. split; [intros earlier []|].
    vm_compute. reflexivity.
Defined.

(** ** Ability factory *)

Lemma head_filter_existsb {A} (f : A -> bool) (l : list A) :
  match head (List.filter f l) with
  | Some x => f x = true /\ In x l
  | None => existsb f l = false
  end.
Proof.
  induction l as [|x l IH]; simpl; [reflexivity|].
  destruct (f x) eqn:Hfx; simpl.
  - auto.
  - destruct (head (List.filter f l)); [|exact IH].
    destruct IH. auto.
Qed.

Lemma existsb_rev {A} (f : A -> bool) (l : list A) :
  existsb f (rev l) = existsb f l.
Proof.
  apply eq_true_iff_eq. rewrite !existsb_exists.
  split; intros (x & Hx & Hf); exists x; split; auto;
    [apply in_rev | apply in_rev in Hx]; assumption.
Qed.

Lemma existsb_map {A B} (f : B -> bool) (g : A -> B) (l : list A) :
  existsb f (List.map g l) = existsb (fun x => f (g x)) l.
Proof. induction l as [|x l IH]; simpl; [|rewrite IH]; reflexivity. Qed.

(** Rules built by the factory carry no [inverted] flag, so [can] is
    the existence of a matching rule. *)
Lemma can_createForUser (ps : list Permission.t) (a s : Js.jsstring) :
  Casl.can (Casl.createMongoAbility (List.map CaslAbilityFactory.toRule ps)) a s
  = existsb (fun p => Casl.matches a s (CaslAbilityFactory.toRule p)) ps.
Proof.
  unfold Casl.can, Casl.relevantRuleFor, Casl.rulesFor. simpl.
  pose proof (head_filter_existsb (Casl.matches a s)
                (rev (List.map CaslAbilityFactory.toRule ps))) as H.
  rewrite existsb_rev in H.
  rewrite <- (existsb_map (Casl.matches a s) CaslAbilityFactory.toRule ps).
  destruct (head _) as [r|].
  - destruct H as [Hm Hin]. apply in_rev, in_map_iff in Hin as (p & <- & Hp).
    simpl. symmetry. apply existsb_exists.
    exists (CaslAbilityFactory.toRule p). split; [apply in_map; exact Hp | exact Hm].
  - symmetry. exact H.
Qed.

Lemma matches_toRule (p : Permission.t) (a s : Js.jsstring) :
  Casl.matches a s (CaslAbilityFactory.toRule p) = true <->
  (Permission.subject p = Some s
   \/ Permission.subject p = Some Casl.anySubjectType
   \/ Permission.subject p = Some []
   \/ Permission.subject p = None)
  /\ (Permission.action p = Some a \/ Permission.action p = Some Casl.anyAction).
Proof.
  unfold Casl.matches, Casl.subjectKey. simpl.
  rewrite andb_true_iff, !orb_true_iff, !bool_decide_eq_true.
  apply and_iff_compat_r.
  destruct (Permission.subject p) as [[|c x]|].
  - split; auto.
  - split.
    + intros [ <- | -> ]; auto.
    + intros [H|[H|[H|H]]]; [left | right | discriminate H | discriminate H];
        congruence.
  - split; auto.
Qed.

(** C5 (as amended): the ability built from a permission set has one rule
    per permission, and grants [(a, s)] exactly when some permission has a
    subject that is [s] or the word [all] (or is empty or null, which the
    rule index files under [all]) and an action that is [a] or the word
    [manage]; grants only add up: the ability of two sets put together
    grants what either grants. *)
Theorem C5_ability_grants :
  forall (ps ps' : list Permission.t) (a s : Js.jsstring),
    length (Casl.rules (abilityOf ps)) = length ps
    /\ (Casl.can (abilityOf ps) a s = true <->
        exists p, In p ps
          /\ (Permission.subject p = Some s
              \/ Permission.subject p = Some Casl.anySubjectType
              \/ Permission.subject p = Some []
              \/ Permission.subject p = None)
          /\ (Permission.action p = Some a
              \/ Permission.action p = Some Casl.anyAction))
    /\ Casl.can (abilityOf (ps ++ ps')) a s
       = Casl.can (abilityOf ps) a s || Casl.can (abilityOf ps') a s.
Proof.
  intros ps ps' a s. unfold abilityOf.
  split; [|split].
  - simpl. apply length_map.
  - rewrite can_createForUser, existsb_exists.
    split; intros (p & Hin & Hm); exists p; (split; [exact Hin|]);
      apply matches_toRule; exact Hm.
  - rewrite !can_createForUser. apply existsb_app.
Qed.

(** C5, the claim as stated, fails: the one permission [manage] on [all]
    grants [readAny] on [User], yet no permission has subject [User]. *)
Lemma C5_counterexample :
  Casl.can (abilityOf [manage_all]) Actions.ReadAny Subjects.User = true
  /\ ~ (exists p, In p [manage_all]
          /\ Permission.subject p = Some Subjects.User
          /\ (Permission.action p = Some Actions.ReadAny
              \/ Permission.action p = Some Actions.Manage)).
Proof.
  split; [vm_compute; reflexivity|].
  intros (p & [<-|[]] & Hs & _). vm_compute in Hs. discriminate Hs.
Qed.

(** ** Reading and printing integers *)













(** ** Numbers *)







(** ** Unary plus on decimal numerals *)







(** ** Read-user policy *)








(** ** Tenant-filtered queries *)

Lemma traverse_In {A B} (f : A -> result B) (l : list A) (ys : list B) (x : A) :
  traverse f l = Ok ys -> In x l -> exists y, f x = Ok y /\ In y ys.
Proof.
  revert ys. induction l as [|x' l IH]; intros ys Htr Hin; [destruct Hin|].
  simpl in Htr. apply bind_Ok in Htr as (y' & Hy' & Htr).
  apply bind_Ok in Htr as (ys' & Hys' & [= <-]).
  destruct Hin as [<-|Hin].
  - exists y'. split; [exact Hy' | left; reflexivity].
  - destruct (IH ys' Hys' Hin) as (y & Hy & Hyin).
    exists y. split; [exact Hy | right; exact Hyin].
Qed.

Lemma traverse_total {A B} (f : A -> result B) (l : list A) :
  (forall x, In x l -> exists y, f x = Ok y) -> exists ys, traverse f l = Ok ys.
Proof.
  induction l as [|x l IH]; intros Hall; simpl; [eauto|].
  destruct (Hall x (or_introl eq_refl)) as [y ->].
  destruct IH as [ys ->]; [intros x' Hx'; apply Hall; right; exact Hx'|].
  simpl. eauto.
Qed.

Lemma find_None {A} (p : A -> bool) (l : list A) :
  (forall x, In x l -> p x = false) -> List.find p l = None.
Proof.
  induction l as [|x l IH]; intros Hall; simpl; [reflexivity|].
  rewrite (Hall x (or_introl eq_refl)). apply IH.
  intros y Hy. apply Hall. right. exact Hy.
Qed.

(** Every condition list computed on that session for a configured class
    holds the tenant condition. *)
Lemma applyFilters_installed cfg t em E conds :
  In E (TenantConfig.entities cfg) ->
  EntityManager.applyFilters (installed cfg t em) E = Ok conds ->
  In {| EntityManager.tenant := Tenant.id t |} conds.
Proof.
  intros HE Happ. unfold EntityManager.applyFilters in Happ.
  set (def := {| EntityManager.cond :=
                   fun args => {| EntityManager.tenant := EntityManager.tenantId args |};
                 EntityManager.entity := TenantConfig.entities cfg |}).
  destruct (traverse_In _ _ _ ("tenant", def) Happ) as (y & Hy & Hin).
  - apply filter_In. split.
    + apply list_elem_of_In, elem_of_map_to_list. simpl. apply lookup_insert_eq.
    + apply bool_decide_eq_true. simpl. apply list_elem_of_In. exact HE.
  - simpl in Hy. rewrite lookup_insert_eq in Hy. injection Hy as <-. exact Hin.
Qed.

(** On that session, a key none of whose rows belongs to the tenant is not
    found: the query throws what it throws for every key, or returns null. *)
Lemma findOne_installed `{Entity A} cfg t em (table : list A) (id : Z) :
  In entityName (TenantConfig.entities cfg) ->
  (forall row, In row table -> primaryKey row = id ->
               tenantKey row <> Some (Tenant.id t)) ->
  EntityManager.findOne (installed cfg t em) table id
  = (_ ← EntityManager.applyFilters (installed cfg t em) entityName; Ok None).
Proof.
  intros HE Hforeign. unfold EntityManager.findOne.
  destruct (EntityManager.applyFilters _ _) as [conds|e] eqn:Happ; [|reflexivity].
  simpl. f_equal. apply find_None. intros row Hrow.
  destruct (Z.eqb_spec (primaryKey row) id) as [Hid|]; [|reflexivity].
  simpl. apply not_true_is_false. intros Hall.
  rewrite forallb_forall in Hall.
  specialize (Hall _ (applyFilters_installed cfg t em _ conds HE Happ)).
  unfold EntityManager.satisfies in Hall. apply bool_decide_eq_true in Hall.
  exact (Hforeign row Hrow Hid Hall).
Qed.

Lemma applyFilters_parameterised cfg t em E :
  parameterised em E ->
  exists conds, EntityManager.applyFilters (installed cfg t em) E = Ok conds.
Proof.
  intros Hpar. unfold EntityManager.applyFilters. apply traverse_total.
  intros [name f] Hin. apply filter_In in Hin as [Hin HE].
  apply list_elem_of_In, elem_of_map_to_list in Hin.
  apply bool_decide_eq_true, list_elem_of_In in HE. simpl in *.
  destruct (decide (name = "tenant")) as [->|Hne].
  - rewrite lookup_insert_eq. eauto.
  - rewrite lookup_insert_ne in Hin by congruence.
    rewrite lookup_insert_ne by congruence.
    destruct (Hpar name f Hin HE) as [args ->]. eauto.
Qed.

Lemma handleRequest_permitted {A} cfg useGuards context em
    (handler : EntityManager.t -> result A) principal t :
  scoped context ->
  Request.user (ExecutionContext.getRequest context) = Some principal ->
  User.tenant principal = Some t ->
  (useGuards = true -> PoliciesGuard.canActivate context = Ok true) ->
  Nest.handleRequest cfg useGuards context em handler
  = handler (installed cfg t em).
Proof.
  intros Hscoped Huser Htenant Hguard. unfold Nest.handleRequest.
  assert (Hallowed : (if useGuards then PoliciesGuard.canActivate context else Ok true)
                     = Ok true).
  { destruct useGuards; [apply Hguard|]; reflexivity. }
  rewrite Hallowed. simpl.
  rewrite (intercept_scoped cfg context em Hscoped), Huser, Htenant.
  reflexivity.
Qed.

(** On a request the guard permits, a lookup by a key none of whose rows
    belongs to the principal's tenant and a lookup by a key no row has end
    alike: never with a record, and with null when the other filters of the
    session have their parameters. *)
Lemma absent_alike `{Entity A} (D : option Js.jsstring) (useGuards : bool)
    (context1 context2 : ExecutionContext.t) (em : EntityManager.t)
    (table : list A) (principal : User.t) (t : Tenant.t) (foreign missing : Z)
    (query : EntityManager.t -> Z -> result (option A)) :
  (forall em' id, query em' id = EntityManager.findOne em' table id) ->
  In entityName (TenantConfig.entities (tenantConfig D)) ->
  scoped context1 -> scoped context2 ->
  Request.user (ExecutionContext.getRequest context1) = Some principal ->
  Request.user (ExecutionContext.getRequest context2) = Some principal ->
  User.tenant principal = Some t ->
  (useGuards = true -> PoliciesGuard.canActivate context1 = Ok true) ->
  (useGuards = true -> PoliciesGuard.canActivate context2 = Ok true) ->
  (forall row, In row table -> primaryKey row = foreign ->
               tenantKey row <> Some (Tenant.id t)) ->
  (forall row, In row table -> primaryKey row <> missing) ->
  let fetch context id :=
    Nest.handleRequest (tenantConfig D) useGuards context em
      (fun em' => query em' id) in
  fetch context1 foreign = fetch context2 missing
  /\ (forall row, fetch context1 foreign <> Ok (Some row))
  /\ (parameterised em entityName -> fetch context1 foreign = Ok None).
Proof.
  intros Hquery HE Hs1 Hs2 Hu1 Hu2 Ht Hg1 Hg2 Hforeign Hmissing fetch.
  subst fetch. cbv beta.
  rewrite (handleRequest_permitted _ useGuards context1 em _ principal t) by assumption.
  rewrite (handleRequest_permitted _ useGuards context2 em _ principal t) by assumption.
  rewrite !Hquery.
  rewrite (findOne_installed _ t em table foreign HE Hforeign).
  rewrite (findOne_installed _ t em table missing HE)
    by (intros row Hrow Hid; destruct (Hmissing row Hrow Hid)).
  split; [reflexivity|]. split.
  - intros row. destruct (EntityManager.applyFilters _ _); discriminate.
  - intros Hpar.
    destruct (applyFilters_parameterised (tenantConfig D) t em entityName Hpar)
      as [conds ->].
    reflexivity.
Qed.

(** C1 (as amended): take a request that is neither public nor
    skip-tenant, with a principal that has a tenant.  The route's policy
    guard runs before the interceptor installs the filter: when it denies,
    the request ends with [ForbiddenException], whatever the id.  When it
    permits, fetching a tenant-owned record, an organization or a user, by
    an id whose rows all belong to other tenants has the same outcome as
    fetching an id that no row has: never a record, and null as soon as
    every other filter of the session has its parameters (as on a fresh
    session); the foreign row is left out by the installed filter inside
    the query. *)
Theorem C1_cross_tenant_absence :
  forall (TENANT_DOMAIN : option Js.jsstring) (useGuards : bool)
         (context1 context2 : ExecutionContext.t) (em : EntityManager.t)
         (organizations : list Organization.t) (users : list User.t)
         (options : option FindOneOptions)
         (principal : User.t) (t : Tenant.t) (foreign missing : Z),
    let cfg := tenantConfig TENANT_DOMAIN in
    let fetchOrganization context id :=
      Nest.handleRequest cfg useGuards context em
        (fun em' => OrganizationsService.findOne em' organizations id options) in
    let fetchUser context id :=
      Nest.handleRequest cfg useGuards context em
        (fun em' => UsersService.findOne em' users id options) in
    scoped context1 -> scoped context2 ->
    Request.user (ExecutionContext.getRequest context1) = Some principal ->
    Request.user (ExecutionContext.getRequest context2) = Some principal ->
    User.tenant principal = Some t ->
    ((useGuards = true -> PoliciesGuard.canActivate context1 = Ok true) ->
     (useGuards = true -> PoliciesGuard.canActivate context2 = Ok true) ->
     ((forall o, In o organizations -> Organization.id o = foreign ->
                 tenantKey o <> Some (Tenant.id t)) ->
      (forall o, In o organizations -> Organization.id o <> missing) ->
      fetchOrganization context1 foreign = fetchOrganization context2 missing
      /\ (forall o, fetchOrganization context1 foreign <> Ok (Some o))
      /\ (parameterised em OrganizationEntity ->
          fetchOrganization context1 foreign = Ok None))
     /\ ((forall u, In u users -> User.id u = foreign ->
                    tenantKey u <> Some (Tenant.id t)) ->
         (forall u, In u users -> User.id u <> missing) ->
         fetchUser context1 foreign = fetchUser context2 missing
         /\ (forall u, fetchUser context1 foreign <> Ok (Some u))
         /\ (parameterised em UserEntity -> fetchUser context1 foreign = Ok None)))
    /\ (useGuards = true -> PoliciesGuard.canActivate context1 = Ok false ->
        fetchOrganization context1 foreign
        = Throw (ForbiddenException "Forbidden resource")
        /\ fetchUser context1 foreign
           = Throw (ForbiddenException "Forbidden resource")).
Proof.
  intros D useGuards context1 context2 em organizations users options
         principal t foreign missing cfg fetchOrganization fetchUser
         Hs1 Hs2 Hu1 Hu2 Ht.
  split.
  - intros Hg1 Hg2. split.
    + intros Hforeign Hmissing.
      pose proof (absent_alike (A := Organization.t) D useGuards context1 context2 em
                    organizations principal t foreign missing
                    (fun em' id => OrganizationsService.findOne em' organizations id options))
        as Halike.
      cbv zeta beta in Halike. subst fetchOrganization cfg. cbv beta.
      apply Halike; try assumption.
      * intros em' id. unfold OrganizationsService.findOne, EntityRepository.findOne.
        destruct options; reflexivity.
      * simpl. auto.
    + intros Hforeign Hmissing.
      pose proof (absent_alike (A := User.t) D useGuards context1 context2 em
                    users principal t foreign missing
                    (fun em' id => UsersService.findOne em' users id options))
        as Halike.
      cbv zeta beta in Halike. subst fetchUser cfg. cbv beta.
      apply Halike; try assumption.
      * intros em' id. unfold UsersService.findOne, EntityRepository.findOne.
        destruct options; reflexivity.
      * simpl. auto.
  - intros -> Hdeny. subst fetchOrganization fetchUser. cbv beta.
    unfold Nest.handleRequest. rewrite Hdeny. split; reflexivity.
Qed.

Lemma C1_cross_tenant_absence_witness :
  Nest.handleRequest (tenantConfig None) true
    (contextOf (checkPolicies [IPolicyHandler ReadAnyOrganizationPolicyHandler.handle]) (Some carol) "3") EntityManager.fresh
    (fun em' => OrganizationsService.findOne em' [sales (Some globex)] 3 None)
  = Ok None
  /\ Nest.handleRequest (tenantConfig None) true
       (contextOf UsersController.findOne_metadata (Some grace) "7")
       EntityManager.fresh
       (fun em' =>
          UsersService.findOne em' [alice; bob; grace] 7
            (Some {| populate := ["role"; "role.permissions"];
                     disableIdentityMap := false |}))
     = Ok None.
Proof.
  split.
  - refine (proj2 (proj2 (proj1 (proj1
              (C1_cross_tenant_absence None true
                 (contextOf (checkPolicies [IPolicyHandler ReadAnyOrganizationPolicyHandler.handle]) (Some carol) "3")
                 (contextOf (checkPolicies [IPolicyHandler ReadAnyOrganizationPolicyHandler.handle]) (Some carol) "4")
                 EntityManager.fresh [sales (Some globex)] [] None carol acme 3 4
                 _ _ eq_refl eq_refl eq_refl) _ _) _ _)) _).
    + split; reflexivity.
    + split; reflexivity.
    + intros _. vm_compute. reflexivity.
    + intros _. vm_compute. reflexivity.
    + intros o [<-|[]] _. simpl. discriminate.
    + intros o [<-|[]]. simpl. discriminate.
    + intros name f Hf. simpl in Hf. rewrite lookup_empty in Hf. discriminate Hf.
  - refine (proj2 (proj2 (proj2 (proj1
              (C1_cross_tenant_absence None true
                 (contextOf UsersController.findOne_metadata (Some grace) "7")
                 (contextOf UsersController.findOne_metadata (Some grace) "8")
                 EntityManager.fresh [] [alice; bob; grace]
                 (Some {| populate := ["role"; "role.permissions"];
                          disableIdentityMap := false |})
                 grace acme 7 8
                 _ _ eq_refl eq_refl eq_refl) _ _) _ _)) _).
    + split; reflexivity.
    + split; reflexivity.
    + intros _. vm_compute. reflexivity.
    + intros _. vm_compute. reflexivity.
    + intros u [<-|[<-|[<-|[]]]] Hid; try (vm_compute in Hid; discriminate Hid).
      simpl. discriminate.
    + intros u [<-|[<-|[<-|[]]]]; vm_compute; discriminate.
    + intros name f Hf. simpl in Hf. rewrite lookup_empty in Hf. discriminate Hf.
Defined.

(** C1, the claim as stated, fails: user [dan] of tenant [acme], holding
    the seeded role [user], asks on a scoped request for [GET /users/7];
    record 7 belongs to tenant [globex].  The policy guard runs first and
    the request ends with [ForbiddenException], not with an absent result;
    the handler, which would look up key 7, is not reached. *)
Lemma C1_counterexample :
  let context := contextOf UsersController.findOne_metadata (Some dan) "7" in
  let outcome :=
    Nest.handleRequest (tenantConfig None) true context EntityManager.fresh
      (fun em' =>
         UsersService.findOne em' [alice; bob; carol; dan] 7
           (Some {| populate := ["role"; "role.permissions"];
                    disableIdentityMap := false |})) in
  scoped context
  /\ In bob [alice; bob; carol; dan]
  /\ User.id bob = 7
  /\ tenantKey bob <> tenantKey dan
  /\ outcome = Throw (ForbiddenException "Forbidden resource")
  /\ outcome <> Ok None.
Proof.
  cbv zeta. split; [split; reflexivity|].
  split; [simpl; auto|]. split; [reflexivity|].
  split; [discriminate|]. split; [vm_compute; reflexivity|].
  vm_compute. discriminate.
Qed.


(** ** Queries on a scoped session *)

Lemma applyFilters_installed_fresh cfg t E :
  EntityManager.applyFilters (installed cfg t EntityManager.fresh) E
  = Ok (if bool_decide (E ∈ TenantConfig.entities cfg)
        then [{| EntityManager.tenant := Tenant.id t |}] else []).
Proof.
  unfold EntityManager.applyFilters, installed, EntityManager.setFilterParams,
    EntityManager.addFilter, EntityManager.fresh.
  cbn [EntityManager.filters EntityManager.filterParams].
  rewrite !insert_empty, map_to_list_singleton.
  cbn [List.filter snd EntityManager.entity].
  destruct (bool_decide _); [|reflexivity].
  cbn [traverse fst snd]. rewrite lookup_singleton_eq. reflexivity.
Qed.

Lemma find_ext {A} (p q : A -> bool) (l : list A) :
  (forall x, p x = q x) -> List.find p l = List.find q l.
Proof.
  intros Hpq. induction l as [|x l IH]; simpl; [reflexivity|].
  rewrite Hpq, IH. reflexivity.
Qed.

Lemma satisfies_ownedBy `{Entity A} (t : Tenant.t) (row : A) :
  forallb (fun w => EntityManager.satisfies w row)
          [{| EntityManager.tenant := Tenant.id t |}]
  = ownedBy t row.
Proof. simpl. apply andb_true_r. Qed.

Lemma find_installed `{Entity A} cfg t em (table rows : list A) where_ :
  In entityName (TenantConfig.entities cfg) ->
  Repository.find (installed cfg t em) table where_ = Ok rows ->
  forall row, In row rows ->
    In row table /\ where_ row = true /\ tenantKey row = Some (Tenant.id t).
Proof.
  intros HE Hfind row Hrow. unfold Repository.find in Hfind.
  apply bind_Ok in Hfind as (conds & Happ & [= <-]).
  apply filter_In in Hrow as (Hin & Hp).
  apply andb_true_iff in Hp as (Hw & Hall).
  split; [exact Hin|]. split; [exact Hw|].
  rewrite forallb_forall in Hall.
  specialize (Hall _ (applyFilters_installed cfg t em _ conds HE Happ)).
  apply bool_decide_eq_true in Hall. exact Hall.
Qed.

Lemma find_installed_fresh `{Entity A} cfg t (table : list A) where_ :
  In entityName (TenantConfig.entities cfg) ->
  Repository.find (installed cfg t EntityManager.fresh) table where_
  = Ok (List.filter (fun row => where_ row && ownedBy t row) table).
Proof.
  intros HE. unfold Repository.find.
  rewrite applyFilters_installed_fresh.
  rewrite bool_decide_eq_true_2 by (apply list_elem_of_In; exact HE).
  simpl. f_equal. apply filter_ext. intros row.
  unfold ownedBy. rewrite andb_true_r. reflexivity.
Qed.

Lemma findOneWhere_installed_fresh `{Entity A} cfg t (table : list A) where_ :
  In entityName (TenantConfig.entities cfg) ->
  Repository.findOneWhere (installed cfg t EntityManager.fresh) table where_
  = Ok (List.find (fun row => where_ row && ownedBy t row) table).
Proof.
  intros HE. unfold Repository.findOneWhere.
  rewrite applyFilters_installed_fresh.
  rewrite bool_decide_eq_true_2 by (apply list_elem_of_In; exact HE).
  simpl. f_equal. apply find_ext. intros row.
  unfold ownedBy. rewrite andb_true_r. reflexivity.
Qed.

Lemma findOne_installed_fresh `{Entity A} cfg t (table : list A) (id : Z) :
  In entityName (TenantConfig.entities cfg) ->
  EntityManager.findOne (installed cfg t EntityManager.fresh) table id
  = Ok (List.find (fun row => (primaryKey row =? id) && ownedBy t row) table).
Proof.
  intros HE. unfold EntityManager.findOne.
  rewrite applyFilters_installed_fresh.
  rewrite bool_decide_eq_true_2 by (apply list_elem_of_In; exact HE).
  simpl. f_equal. apply find_ext. intros row.
  unfold ownedBy. rewrite andb_true_r. reflexivity.
Qed.

Lemma find_unique `{Entity A} (table : list A) (p : A -> bool) (row : A) :
  In row table -> p row = true ->
  (forall row', In row' table -> p row' = true -> row' = row) ->
  List.find p table = Some row.
Proof.
  intros Hin Hp Huniq.
  destruct (List.find p table) as [row'|] eqn:Hfind.
  - apply find_some in Hfind as [Hin' Hp']. f_equal. apply Huniq; assumption.
  - apply (find_none _ _ Hfind) in Hin. congruence.
Qed.

(** X1: on the session the interceptor hands over, whatever was installed
    on it before, every organization [findAll] returns is a row of the
    table that belongs to the principal's tenant, and so is every user. *)
Theorem X1_findAll_isolation :
  forall (cfg : TenantConfig.t) (t : Tenant.t) (em : EntityManager.t)
         (organizations : list Organization.t) (users : list User.t),
    In OrganizationEntity (TenantConfig.entities cfg) ->
    In UserEntity (TenantConfig.entities cfg) ->
    (forall rows o,
        OrganizationsCrud.findAll (installed cfg t em) organizations = Ok rows ->
        In o rows ->
        In o organizations
        /\ Tenant.id <$> Organization.tenant o = Some (Tenant.id t))
    /\ (forall rows u,
        UsersCrud.findAll (installed cfg t em) users = Ok rows ->
        In u rows ->
        In u users /\ Tenant.id <$> User.tenant u = Some (Tenant.id t)).
Proof.
  intros cfg t em organizations users HO HU. split.
  - intros rows o Hfind Ho.
    pose proof (find_installed (A := Organization.t) cfg t em organizations
                  rows (fun _ => true)) as Hrows.
    destruct (Hrows HO Hfind o Ho) as (Hin & _ & Ht). auto.
  - intros rows u Hfind Hu.
    pose proof (find_installed (A := User.t) cfg t em users rows
                  (fun _ => true)) as Hrows.
    destruct (Hrows HU Hfind u Hu) as (Hin & _ & Ht). auto.
Qed.

(** X2: on a session of its own, a scoped request's [findAll] returns
    exactly the rows of the principal's tenant, in table order, for
    organizations and for users. *)
Theorem X2_findAll_own_rows :
  forall (TENANT_DOMAIN : option Js.jsstring) (t : Tenant.t)
         (organizations : list Organization.t) (users : list User.t),
    let em := installed (tenantConfig TENANT_DOMAIN) t EntityManager.fresh in
    OrganizationsCrud.findAll em organizations
    = Ok (List.filter (ownedBy t) organizations)
    /\ UsersCrud.findAll em users = Ok (List.filter (ownedBy t) users).
Proof.
  intros D t organizations users em. subst em.
  unfold OrganizationsCrud.findAll, UsersCrud.findAll, Repository.findAll.
  split; rewrite find_installed_fresh by (simpl; auto); reflexivity.
Qed.

Lemma X1_findAll_isolation_witness :
  Tenant.id <$> Organization.tenant (sales (Some acme)) = Some (Tenant.id acme).
Proof.
  refine (proj2 (proj1 (X1_findAll_isolation (tenantConfig None) acme
                          EntityManager.fresh
                          [sales (Some globex); sales (Some acme)] [alice; bob]
                          _ _)
                   [sales (Some acme)] (sales (Some acme)) _ _)).
  - simpl. auto.
  - simpl. auto.
  - vm_compute. reflexivity.
  - simpl. auto.
Defined.

Lemma findOne_own `{Entity A} cfg t (table : list A) (row : A) :
  In entityName (TenantConfig.entities cfg) ->
  In row table ->
  ownedBy t row = true ->
  uniqueKeys table ->
  EntityManager.findOne (installed cfg t EntityManager.fresh) table
    (primaryKey row)
  = Ok (Some row).
Proof.
  intros HE Hin Hown Huniq.
  rewrite findOne_installed_fresh by exact HE. f_equal.
  apply find_unique.
  - exact Hin.
  - rewrite Hown, Z.eqb_refl. reflexivity.
  - intros row' Hin' Hp. apply andb_true_iff in Hp as [Hid _].
    apply Z.eqb_eq in Hid. apply Huniq; assumption.
Qed.

(** X3: on a session of its own, a scoped request's [findOne] returns the
    organization with the given key when that row belongs to the
    principal's tenant (keys identifying rows), with or without options. *)
Theorem X3_findOne_own :
  forall (TENANT_DOMAIN : option Js.jsstring) (t : Tenant.t)
         (repo : list Organization.t) (o : Organization.t)
         (options : option FindOneOptions),
    In o repo ->
    ownedBy t o = true ->
    uniqueKeys repo ->
    OrganizationsService.findOne
      (installed (tenantConfig TENANT_DOMAIN) t EntityManager.fresh)
      repo (Organization.id o) options
    = Ok (Some o).
Proof.
  intros D t repo o options Hin Hown Huniq.
  pose proof (findOne_own (A := Organization.t) (tenantConfig D) t repo o) as Hfind.
  unfold OrganizationsService.findOne, EntityRepository.findOne.
  destruct options; apply Hfind; simpl; auto.
Qed.

Lemma X3_findOne_own_witness :
  OrganizationsService.findOne
    (installed (tenantConfig None) acme EntityManager.fresh)
    [sales (Some acme)] 3 None
  = Ok (Some (sales (Some acme))).
Proof.
  apply (X3_findOne_own None acme [sales (Some acme)] (sales (Some acme)) None).
  - simpl. auto.
  - reflexivity.
  - intros row row' [<-|[]] [<-|[]] _. reflexivity.
Defined.

(** X4: on the session the interceptor hands over, updating or removing an
    organization by a key that no row of the principal's tenant has (the
    row is missing, or belongs to another tenant) never succeeds; when the
    other filters of the session have their parameters, both fail with the
    same [BadRequestException]. *)
Theorem X4_write_foreign_or_missing :
  forall (cfg : TenantConfig.t) (t : Tenant.t) (em : EntityManager.t)
         (repo : list Organization.t) (id : Z) (dto : UpdateOrganizationDto.t),
    In OrganizationEntity (TenantConfig.entities cfg) ->
    (forall o, In o repo -> Organization.id o = id -> ownedBy t o = false) ->
    let em' := installed cfg t em in
    (forall r, OrganizationsCrud.update em' repo id dto <> Ok r)
    /\ (forall r, OrganizationsCrud.remove em' repo id <> Ok r)
    /\ (parameterised em OrganizationEntity ->
        OrganizationsCrud.update em' repo id dto
        = Throw (BadRequestException "未找到指定的组织")
        /\ OrganizationsCrud.remove em' repo id
           = Throw (BadRequestException "未找到指定的组织")).
Proof.
  intros cfg t em repo id dto HE Hnone em'. subst em'.
  pose proof (findOne_installed (A := Organization.t) cfg t em repo id) as Hfind.
  assert (Hq : EntityManager.findOne (installed cfg t em) repo id
               = (_ ← EntityManager.applyFilters (installed cfg t em)
                        OrganizationEntity; Ok None)).
  { apply Hfind; [exact HE|]. intros o Ho Hid Hown.
    specialize (Hnone o Ho Hid). unfold ownedBy in Hnone.
    apply bool_decide_eq_false in Hnone. exact (Hnone Hown). }
  unfold OrganizationsCrud.update, OrganizationsCrud.remove,
    EntityRepository.findOne. rewrite Hq.
  split; [|split].
  - intros r. destruct (EntityManager.applyFilters _ _); discriminate.
  - intros r. destruct (EntityManager.applyFilters _ _); discriminate.
  - intros Hpar.
    destruct (applyFilters_parameterised cfg t em OrganizationEntity Hpar)
      as [conds ->]. split; reflexivity.
Qed.

Lemma X4_write_foreign_or_missing_witness :
  OrganizationsCrud.remove
    (installed (tenantConfig None) acme EntityManager.fresh)
    [sales (Some globex)] 3
  = Throw (BadRequestException "未找到指定的组织").
Proof.
  refine (proj2 (proj2 (proj2 (X4_write_foreign_or_missing (tenantConfig None)
            acme EntityManager.fresh [sales (Some globex)] 3
            {| UpdateOrganizationDto.name := None;
               UpdateOrganizationDto.description := None |} _ _)) _)).
  - simpl. auto.
  - intros o [<-|[]] _. reflexivity.
  - intros name f Hf. simpl in Hf. rewrite lookup_empty in Hf. discriminate Hf.
Defined.

Lemma find_map_replace (p : Organization.t -> bool) (o' : Organization.t)
    (repo : list Organization.t) :
  p o' = true ->
  (exists o, In o repo /\ Organization.id o = Organization.id o') ->
  (forall o, p o = true -> Organization.id o = Organization.id o') ->
  List.find p (UnitOfWork.updateRow o' repo) = Some o'.
Proof.
  intros Hp (o & Hin & Hid) Hkey. unfold UnitOfWork.updateRow.
  induction repo as [|r repo IH]; [destruct Hin|]. simpl.
  destruct (Z.eqb_spec (Organization.id r) (Organization.id o')) as [Hr|Hr].
  - rewrite Hp. reflexivity.
  - destruct (p r) eqn:Hpr; [destruct (Hr (Hkey r Hpr))|].
    destruct Hin as [->|Hin]; [contradiction|]. apply IH. exact Hin.
Qed.

(** X5: on a session of its own, updating an organization of the
    principal's tenant with a dto that carries its declared properties
    only returns the row with the dto's properties assigned: the name and
    the description are the dto's where the dto has them and the row's own
    where it has not, key and tenant are kept.  The table
    keeps its length, the updated row is in it, every row with another key
    stays as it was, and the same session reads the updated row back. *)
Theorem X5_update_own :
  forall (TENANT_DOMAIN : option Js.jsstring) (t : Tenant.t)
         (repo : list Organization.t) (o : Organization.t)
         (dto : UpdateOrganizationDto.t),
    In o repo ->
    ownedBy t o = true ->
    uniqueKeys repo ->
    let em := installed (tenantConfig TENANT_DOMAIN) t EntityManager.fresh in
    let o' :=
      {| Organization.id := Organization.id o;
         Organization.tenant := Organization.tenant o;
         Organization.name :=
           match UpdateOrganizationDto.name dto with
           | Some name => name
           | None => Organization.name o
           end;
         Organization.description :=
           match UpdateOrganizationDto.description dto with
           | Some description => Some description
           | None => Organization.description o
           end |} in
    exists repo',
      OrganizationsCrud.update em repo (Organization.id o) dto = Ok (o', repo')
      /\ length repo' = length repo
      /\ In o' repo'
      /\ (forall r, Organization.id r <> Organization.id o ->
                    (In r repo' <-> In r repo))
      /\ EntityManager.findOne em repo' (Organization.id o) = Ok (Some o').
Proof.
  intros D t repo o dto Hin Hown Huniq em o'. subst em.
  assert (Hassign : OrganizationsCrud.assign o dto = o').
  { unfold OrganizationsCrud.assign. subst o'.
    destruct (UpdateOrganizationDto.name dto); reflexivity. }
  exists (UnitOfWork.updateRow o' repo).
  split.
  { pose proof (findOne_own (A := Organization.t) (tenantConfig D) t repo o) as Hfind.
    unfold OrganizationsCrud.update, EntityRepository.findOne.
    simpl in Hfind. rewrite Hfind by auto. cbn [mbind result_bind].
    rewrite Hassign. reflexivity. }
  split; [apply length_map|]. split; [|split].
  - unfold UnitOfWork.updateRow. apply in_map_iff. exists o.
    split; [|exact Hin]. simpl. rewrite Z.eqb_refl. reflexivity.
  - intros r Hr. unfold UnitOfWork.updateRow. rewrite in_map_iff. simpl. split.
    + intros (r0 & Heq & Hr0).
      destruct (Z.eqb_spec (Organization.id r0) (Organization.id o)).
      * subst r. simpl in Hr. congruence.
      * subst r0. exact Hr0.
    + intros Hr0. exists r. split; [|exact Hr0].
      destruct (Z.eqb_spec (Organization.id r) (Organization.id o)); congruence.
  - rewrite findOne_installed_fresh by (simpl; auto). f_equal.
    apply find_map_replace.
    + simpl. rewrite Z.eqb_refl. simpl. exact Hown.
    + exists o. split; [exact Hin | reflexivity].
    + intros r Hp. apply andb_true_iff in Hp as [Hid _].
      apply Z.eqb_eq in Hid. exact Hid.
Qed.

Lemma X5_update_own_witness :
  exists repo',
    OrganizationsCrud.update
      (installed (tenantConfig None) acme EntityManager.fresh)
      [sales (Some acme)] 3
      {| UpdateOrganizationDto.name := None;
         UpdateOrganizationDto.description := Some (Js.lit "Inside sales") |}
    = Ok ({| Organization.id := 3; Organization.tenant := Some acme;
             Organization.name := Js.lit "Sales";
             Organization.description := Some (Js.lit "Inside sales") |},
          repo').
Proof.
  destruct (X5_update_own None acme [sales (Some acme)] (sales (Some acme))
              {| UpdateOrganizationDto.name := None;
                 UpdateOrganizationDto.description :=
                   Some (Js.lit "Inside sales") |})
    as (repo' & Hupd & _).
  - simpl. auto.
  - reflexivity.
  - intros row row' [<-|[]] [<-|[]] _. reflexivity.
  - exists repo'. exact Hupd.
Defined.

(** X6: on a session of its own, removing an organization of the
    principal's tenant returns that row and leaves exactly the rows with
    another key; the same session then reads null for the key. *)
Theorem X6_remove_own :
  forall (TENANT_DOMAIN : option Js.jsstring) (t : Tenant.t)
         (repo : list Organization.t) (o : Organization.t),
    In o repo ->
    ownedBy t o = true ->
    uniqueKeys repo ->
    let em := installed (tenantConfig TENANT_DOMAIN) t EntityManager.fresh in
    exists repo',
      OrganizationsCrud.remove em repo (Organization.id o) = Ok (o, repo')
      /\ (forall r, In r repo' <->
                    In r repo /\ Organization.id r <> Organization.id o)
      /\ EntityManager.findOne em repo' (Organization.id o) = Ok None.
Proof.
  intros D t repo o Hin Hown Huniq em. subst em.
  exists (UnitOfWork.removeRow o repo). split.
  { pose proof (findOne_own (A := Organization.t) (tenantConfig D) t repo o) as Hfind.
    unfold OrganizationsCrud.remove, EntityRepository.findOne.
    simpl in Hfind. rewrite Hfind by auto. reflexivity. }
  assert (Hrows : forall r, In r (UnitOfWork.removeRow o repo) <->
                            In r repo /\ Organization.id r <> Organization.id o).
  { intros r. unfold UnitOfWork.removeRow. rewrite filter_In. simpl.
    rewrite negb_true_iff, Z.eqb_neq. reflexivity. }
  split; [exact Hrows|].
  rewrite findOne_installed_fresh by (simpl; auto). f_equal.
  apply find_None. intros r Hr. apply Hrows in Hr as [_ Hne].
  apply andb_false_iff. left. apply Z.eqb_neq. exact Hne.
Qed.

Lemma X6_remove_own_witness :
  exists repo',
    OrganizationsCrud.remove
      (installed (tenantConfig None) acme EntityManager.fresh)
      [sales (Some acme)] 3
    = Ok (sales (Some acme), repo').
Proof.
  destruct (X6_remove_own None acme [sales (Some acme)] (sales (Some acme)))
    as (repo' & Hrem & _).
  - simpl. auto.
  - reflexivity.
  - intros row row' [<-|[]] [<-|[]] _. reflexivity.
  - exists repo'. exact Hrem.
Defined.

(** ** Creating organizations *)

Lemma find_app_last {A} (p : A -> bool) (l : list A) (x : A) :
  (forall y, In y l -> p y = false) ->
  List.find p (l ++ [x]) = if p x then Some x else None.
Proof.
  induction l as [|y l IH]; intros Hl; simpl; [reflexivity|].
  rewrite (Hl y (or_introl eq_refl)). apply IH.
  intros z Hz. apply Hl. right. exact Hz.
Qed.

Lemma create_stamped (D : option Js.jsstring) (cls : ClsService.store)
    (t : Tenant.t) (generatedId : Z) (db : Database.t)
    (dto : CreateOrganizationDto.t) :
  ClsService.get cls "tenant" = Some t ->
  OrganizationsCrud.create (tenantConfig D) cls generatedId db dto
  = Ok (EOrganization
          {| Organization.id := generatedId;
             Organization.tenant := Some t;
             Organization.name := CreateOrganizationDto.name dto;
             Organization.description := CreateOrganizationDto.description dto |},
        {| Database.users := Database.users db;
           Database.organizations :=
             Database.organizations db
             ++ [{| Organization.id := generatedId;
                    Organization.tenant := Some t;
                    Organization.name := CreateOrganizationDto.name dto;
                    Organization.description :=
                      CreateOrganizationDto.description dto |}];
           Database.tenants := Database.tenants db;
           Database.roles := Database.roles db;
           Database.permissions := Database.permissions db |}).
Proof.
  intros Hget.
  unfold OrganizationsCrud.create, UnitOfWork.persistNew,
    EventManager.dispatchBeforeCreate, TenantAwareSubscriber.beforeCreate.
  rewrite Hget. reflexivity.
Qed.

(** X7: in a request whose principal the JWT strategy resolved, with a
    tenant, [create] with a dto that carries its declared properties only
    writes one organization: it carries the dto's name and
    description and the principal's tenant, it is appended to the
    organizations, and the users, tenants, roles and permissions stay as
    they were; the request's own session finds it by its key (a key no
    earlier organization has), and the session of a principal of any other
    tenant does not. *)
Theorem X7_create_scoped :
  forall (TENANT_DOMAIN : option Js.jsstring) (em0 : EntityManager.t)
         (users : list User.t) (cls0 cls : ClsService.store) (sub : Z)
         (principal : User.t) (t : Tenant.t) (generatedId : Z)
         (db : Database.t) (dto : CreateOrganizationDto.t),
    JwtStrategy.validate em0 users cls0 sub = Ok (Some principal, cls) ->
    User.tenant principal = Some t ->
    (forall o, In o (Database.organizations db) ->
               Organization.id o <> generatedId) ->
    let cfg := tenantConfig TENANT_DOMAIN in
    let o := {| Organization.id := generatedId;
                Organization.tenant := Some t;
                Organization.name := CreateOrganizationDto.name dto;
                Organization.description :=
                  CreateOrganizationDto.description dto |} in
    let db' := {| Database.users := Database.users db;
                  Database.organizations := Database.organizations db ++ [o];
                  Database.tenants := Database.tenants db;
                  Database.roles := Database.roles db;
                  Database.permissions := Database.permissions db |} in
    OrganizationsCrud.create cfg cls generatedId db dto
    = Ok (EOrganization o, db')
    /\ EntityManager.findOne (installed cfg t EntityManager.fresh)
         (Database.organizations db') generatedId = Ok (Some o)
    /\ (forall t2, Tenant.id t2 <> Tenant.id t ->
        EntityManager.findOne (installed cfg t2 EntityManager.fresh)
          (Database.organizations db') generatedId = Ok None).
Proof.
  intros D em0 users cls0 cls sub principal t generatedId db dto
         Hval Ht Hfresh cfg o db'.
  assert (Hget : ClsService.get cls "tenant" = Some t).
  { rewrite (validate_store _ _ _ _ _ _ Hval). exact Ht. }
  split; [apply (create_stamped D cls t generatedId db dto Hget)|].
  subst db'. cbn [Database.organizations].
  assert (Hold : forall t' (r : Organization.t),
            In r (Database.organizations db) ->
            (Organization.id r =? generatedId) && ownedBy t' r = false).
  { intros t' r Hr. apply andb_false_iff. left.
    apply Z.eqb_neq. exact (Hfresh r Hr). }
  split.
  - rewrite (findOne_installed_fresh (A := Organization.t)) by (simpl; auto).
    f_equal. rewrite find_app_last by (apply Hold).
    subst o. unfold ownedBy. simpl. rewrite Z.eqb_refl.
    rewrite bool_decide_eq_true_2 by reflexivity. reflexivity.
  - intros t2 Hne.
    rewrite (findOne_installed_fresh (A := Organization.t)) by (simpl; auto).
    f_equal. rewrite find_app_last by (apply Hold).
    subst o. unfold ownedBy. simpl. rewrite Z.eqb_refl.
    rewrite bool_decide_eq_false_2; [reflexivity|].
    intros [= Heq]. congruence.
Qed.

Lemma X7_create_scoped_witness :
  OrganizationsCrud.create (tenantConfig None)
    (ClsService.set ∅ "tenant" (Some acme)) 3 seededDatabase
    {| CreateOrganizationDto.name := Js.lit "Sales";
       CreateOrganizationDto.description := None |}
  = Ok (EOrganization (sales (Some acme)),
        {| Database.users := []; Database.organizations := [sales (Some acme)];
           Database.tenants := []; Database.roles := [Seed.admin; Seed.user];
           Database.permissions := [] |}).
Proof.
  refine (proj1 (X7_create_scoped None EntityManager.fresh [alice; bob] ∅
                   (ClsService.set ∅ "tenant" (Some acme)) 5 alice acme 3
                   seededDatabase
                   {| CreateOrganizationDto.name := Js.lit "Sales";
                      CreateOrganizationDto.description := None |} _ _ _)).
  - vm_compute. reflexivity.
  - reflexivity.
  - intros o [].
Defined.

(** X8: whether [create] of the organizations service writes depends on
    the tenant in the request context store alone.  With no tenant there it
    writes nothing: the flush fails on the organization's required tenant,
    with an error that is no HTTP exception and so reaches the client with
    status 500; with a tenant there, the same call succeeds. *)
Theorem X8_create_without_tenant :
  forall (TENANT_DOMAIN : option Js.jsstring) (cls : ClsService.store)
         (generatedId : Z) (db : Database.t) (dto : CreateOrganizationDto.t),
    ClsService.get cls "tenant" = None ->
    (exists message,
       OrganizationsCrud.create (tenantConfig TENANT_DOMAIN) cls generatedId db dto
       = Throw (Error message)
       /\ UnitOfWork.validateRequired
            (EOrganization
               {| Organization.id := generatedId;
                  Organization.tenant := None;
                  Organization.name := CreateOrganizationDto.name dto;
                  Organization.description :=
                    CreateOrganizationDto.description dto |})
          = Throw (Error message)
       /\ getStatus (Error message) = 500
       /\ forall status text, Error message <> HttpException status text)
    /\ forall (t : Tenant.t),
         exists written,
           OrganizationsCrud.create (tenantConfig TENANT_DOMAIN)
             (ClsService.set cls "tenant" (Some t)) generatedId db dto
           = Ok written.
Proof.
  intros D cls generatedId db dto Hget. split.
  - unfold OrganizationsCrud.create.
    destruct (persist_without_tenant D cls
                {| Organization.id := generatedId;
                   Organization.tenant := None;
                   Organization.name := CreateOrganizationDto.name dto;
                   Organization.description :=
                     CreateOrganizationDto.description dto |}
                db Hget) as (message & Hcheck & Hthrow).
    exists message. split; [exact Hthrow|]. split; [exact Hcheck|].
    split; [reflexivity|]. intros status text. discriminate.
  - intros t. eexists.
    apply (create_stamped D (ClsService.set cls "tenant" (Some t)) t).
    unfold ClsService.get, ClsService.set. apply lookup_insert_eq.
Qed.

Lemma X8_create_without_tenant_witness :
  exists message,
    OrganizationsCrud.create (tenantConfig None) ∅ 3 emptyDatabase
      {| CreateOrganizationDto.name := Js.lit "Sales";
         CreateOrganizationDto.description := None |}
    = Throw (Error message).
Proof.
  destruct (proj1 (X8_create_without_tenant None ∅ 3 emptyDatabase
                     {| CreateOrganizationDto.name := Js.lit "Sales";
                        CreateOrganizationDto.description := None |}
                     (lookup_empty "tenant")))
    as (message & He & _).
  exists message. exact He.
Defined.

(** ** Users and authentication *)

Lemma applyFilters_fresh (E : EntityName) :
  EntityManager.applyFilters EntityManager.fresh E = Ok [].
Proof.
  unfold EntityManager.applyFilters, EntityManager.fresh.
  cbn [EntityManager.filters]. rewrite map_to_list_empty. reflexivity.
Qed.

Lemma findOneWhere_fresh `{Entity A} (table : list A) where_ :
  Repository.findOneWhere EntityManager.fresh table where_
  = Ok (List.find where_ table).
Proof.
  unfold Repository.findOneWhere. rewrite applyFilters_fresh. simpl.
  f_equal. apply find_ext. intros row. apply andb_true_r.
Qed.

Lemma findOne_fresh `{Entity A} (table : list A) (id : Z) :
  EntityManager.findOne EntityManager.fresh table id
  = Ok (List.find (fun row => primaryKey row =? id) table).
Proof.
  unfold EntityManager.findOne. rewrite applyFilters_fresh. simpl.
  f_equal. apply find_ext. intros row. apply andb_true_r.
Qed.

(** The tenant filter of the shipped configuration leaves roles alone. *)
Lemma defaultRole_requestSession D em (roles : list Role.t) :
  requestSession D em ->
  UsersCrud.defaultRole em roles
  = Ok (unpopulated
          <$> List.find (fun r => bool_decide (Role.name r = Js.lit "user")) roles).
Proof.
  intros [-> | [t ->]]; unfold UsersCrud.defaultRole.
  - rewrite findOneWhere_fresh. cbn [mbind result_bind].
    destruct (List.find _ roles); reflexivity.
  - unfold Repository.findOneWhere. rewrite applyFilters_installed_fresh.
    cbn [mbind result_bind].
    rewrite (find_ext _ (fun r => bool_decide (Role.name r = Js.lit "user")))
      by (intros row; apply andb_true_r).
    destruct (List.find _ roles); reflexivity.
Qed.

Lemma userRow_Some (u row : User.t) (db : Database.t) :
  UnitOfWork.userRow u db = Some row ->
  User.id row = User.id u /\ User.username row = User.username u
  /\ User.email row = User.email u /\ User.password row = User.password u
  /\ User.tenant row = User.tenant u.
Proof.
  unfold UnitOfWork.userRow. destruct (User.role u) as [r|]; [|discriminate].
  cbn [mbind option_bind].
  destruct (List.find _ (Database.roles db)) as [stored|]; [|discriminate].
  cbn [mbind option_bind]. intros [= <-]. repeat split.
Qed.

(** X9: [UsersService.create] needs the role named [user]: when no role
    has that name it fails with an internal-server-error exception, on a
    public route as on a scoped one, and writes nothing. *)
Theorem X9_create_user_without_default_role :
  forall (TENANT_DOMAIN : option Js.jsstring) (cls : ClsService.store)
         (hash : Js.jsstring -> Js.jsstring) (em : EntityManager.t)
         (tenantId userId : Z) (db : Database.t) (dto : CreateUserDto.t),
    requestSession TENANT_DOMAIN em ->
    (forall r, In r (Database.roles db) -> Role.name r <> Js.lit "user") ->
    UsersCrud.create (tenantConfig TENANT_DOMAIN) cls hash em tenantId userId db dto
    = Throw (InternalServerErrorException "默认角色不存在").
Proof.
  intros D cls hash em tenantId userId db dto Hem Hnone.
  unfold UsersCrud.create. rewrite (defaultRole_requestSession D em _ Hem).
  rewrite find_None; [reflexivity|].
  intros r Hr. apply bool_decide_eq_false. exact (Hnone r Hr).
Qed.

Lemma X9_create_user_without_default_role_witness :
  UsersCrud.create (tenantConfig None) ∅ (fun p => p) EntityManager.fresh 1 1
    emptyDatabase erin
  = Throw (InternalServerErrorException "默认角色不存在").
Proof.
  apply (X9_create_user_without_default_role None ∅ (fun p => p)
           EntityManager.fresh 1 1 emptyDatabase).
  - left. reflexivity.
  - intros r [].
Defined.

Lemma dispatch_tenant (root : Js.jsstring) (cls : ClsService.store) (t : Tenant.t) :
  EventManager.dispatchBeforeCreate (tenantConfig (Some root)) cls (ETenant t)
  = Ok (ETenant {| Tenant.id := Tenant.id t;
                   Tenant.domain := Tenant.domain t ++ Js.lit "." ++ root;
                   Tenant.isActive := Tenant.isActive t |}).
Proof.
  assert (H1 : EventManager.listens
                 (TenantAwareSubscriber.getSubscribedEntities
                    (tenantConfig (Some root))) (ETenant t) = false)
    by reflexivity.
  assert (H2 : EventManager.listens TenantSubscriber.getSubscribedEntities
                 (ETenant t) = true) by reflexivity.
  unfold EventManager.dispatchBeforeCreate. rewrite H1.
  cbn [mbind result_bind]. rewrite H2.
  unfold TenantSubscriber.beforeCreate, Js.concatUndefined.
  cbn [mbind result_bind TenantConfig.domain tenantConfig default].
  rewrite <- app_assoc. reflexivity.
Qed.

Lemma dispatch_user (D : option Js.jsstring) (cls : ClsService.store) (u : User.t) :
  EventManager.dispatchBeforeCreate (tenantConfig D) cls (EUser u) = Ok (EUser u).
Proof. reflexivity. Qed.

Lemma existsb_false {A} (p : A -> bool) (l : list A) :
  (forall x, In x l -> p x = false) -> existsb p l = false.
Proof.
  intros Hall. apply not_true_is_false. intros Hex.
  apply existsb_exists in Hex as (x & Hx & Hp).
  rewrite (Hall x Hx) in Hp. discriminate Hp.
Qed.

Lemma create_user_ok :
  forall (root : Js.jsstring) (cls : ClsService.store)
         (hash : Js.jsstring -> Js.jsstring) (em : EntityManager.t)
         (tenantId userId : Z) (db : Database.t) (dto : CreateUserDto.t)
         (r : Role.t),
    requestSession (Some root) em ->
    In r (Database.roles db) ->
    Role.name r = Js.lit "user" ->
    (forall r', In r' (Database.roles db) -> Role.name r' = Role.name r -> r' = r) ->
    (forall r', In r' (Database.roles db) -> Role.id r' = Role.id r -> r' = r) ->
    (forall t', In t' (Database.tenants db) ->
                Tenant.domain t' <> CreateUserDto.domain dto ++ Js.lit "." ++ root) ->
    (forall u', In u' (Database.users db) ->
                User.username u' <> CreateUserDto.username dto
                /\ User.email u' <> CreateUserDto.email dto) ->
    let tenant := {| Tenant.id := tenantId;
                     Tenant.domain := CreateUserDto.domain dto ++ Js.lit "." ++ root;
                     Tenant.isActive := true |} in
    let userWith (role : Role.t) :=
      {| User.id := userId;
         User.username := CreateUserDto.username dto;
         User.email := CreateUserDto.email dto;
         User.password := hash (CreateUserDto.password dto);
         User.role := Some role;
         User.tenant := Some tenant |} in
    UsersCrud.create (tenantConfig (Some root)) cls hash em
      tenantId userId db dto
    = Ok (EUser (userWith (unpopulated r)),
          {| Database.users := Database.users db ++ [userWith r];
             Database.organizations := Database.organizations db;
             Database.tenants := Database.tenants db ++ [tenant];
             Database.roles := Database.roles db;
             Database.permissions := Database.permissions db |}).
Proof.
  intros root cls hash em tenantId userId db dto r Hem Hr Hname Huniq Hkey
         Htenants Husers tenant userWith.
  unfold UsersCrud.create. rewrite (defaultRole_requestSession _ em _ Hem).
  rewrite (find_unique (A := Role.t) _ _ r Hr).
  2:{ apply bool_decide_eq_true. exact Hname. }
  2:{ intros r' Hr' Hp. apply bool_decide_eq_true in Hp.
      apply Huniq; congruence. }
  cbn [fmap option_fmap option_map mbind result_bind].
  unfold UnitOfWork.persistNew. rewrite dispatch_tenant.
  cbn [mbind result_bind UnitOfWork.validateRequired UnitOfWork.insert
       Tenant.id Tenant.domain Tenant.isActive].
  fold tenant.
  rewrite existsb_false.
  2:{ intros t' Ht'. apply bool_decide_eq_false. exact (Htenants t' Ht'). }
  cbn [mbind result_bind fst snd asTenant]. fold (userWith (unpopulated r)).
  rewrite dispatch_user.
  assert (Hrow : forall db', Database.roles db' = Database.roles db ->
            UnitOfWork.userRow (userWith (unpopulated r)) db'
            = Some (userWith r)).
  { intros db' Hroles. unfold UnitOfWork.userRow. rewrite Hroles.
    cbn [userWith User.role mbind option_bind unpopulated Role.id].
    rewrite (find_unique (A := Role.t) _ _ r Hr).
    - reflexivity.
    - apply Z.eqb_refl.
    - intros r' Hr' Hp. apply Z.eqb_eq in Hp. apply Hkey; assumption. }
  cbn [mbind result_bind UnitOfWork.validateRequired UnitOfWork.insert
       User.role User.tenant userWith].
  rewrite Hrow by reflexivity.
  cbn [User.username User.email userWith Database.users Database.organizations
       Database.tenants Database.roles Database.permissions].
  rewrite existsb_false; [reflexivity|].
  intros u' Hu'. destruct (Husers u' Hu') as [Hn He].
  apply orb_false_iff. split; apply bool_decide_eq_false; assumption.
Qed.

(** X10: with the role [user] present, a root domain configured and no
    clash on the unique columns, [UsersService.create] writes a new tenant
    and then the new user.  The tenant's domain is the dto's label, a dot
    and the root domain; the user has the dto's name and email, the hashed
    password, the role [user], and that new tenant as its tenant, whatever
    tenant the request context store holds.  The row written goes with the
    role row; the entity returned carries the role as it was read, without
    [populate]: its permission collection is not loaded. *)
Theorem X10_create_user :
  forall (root : Js.jsstring) (cls : ClsService.store)
         (hash : Js.jsstring -> Js.jsstring) (em : EntityManager.t)
         (tenantId userId : Z) (db : Database.t) (dto : CreateUserDto.t)
         (r : Role.t),
    requestSession (Some root) em ->
    In r (Database.roles db) ->
    Role.name r = Js.lit "user" ->
    (forall r', In r' (Database.roles db) -> Role.name r' = Role.name r -> r' = r) ->
    (forall r', In r' (Database.roles db) -> Role.id r' = Role.id r -> r' = r) ->
    (forall t', In t' (Database.tenants db) ->
                Tenant.domain t' <> CreateUserDto.domain dto ++ Js.lit "." ++ root) ->
    (forall u', In u' (Database.users db) ->
                User.username u' <> CreateUserDto.username dto
                /\ User.email u' <> CreateUserDto.email dto) ->
    let tenant := {| Tenant.id := tenantId;
                     Tenant.domain := CreateUserDto.domain dto ++ Js.lit "." ++ root;
                     Tenant.isActive := true |} in
    let userWith (role : Role.t) :=
      {| User.id := userId;
         User.username := CreateUserDto.username dto;
         User.email := CreateUserDto.email dto;
         User.password := hash (CreateUserDto.password dto);
         User.role := Some role;
         User.tenant := Some tenant |} in
    UsersCrud.create (tenantConfig (Some root)) cls hash em
      tenantId userId db dto
    = Ok (EUser (userWith (unpopulated r)),
          {| Database.users := Database.users db ++ [userWith r];
             Database.organizations := Database.organizations db;
             Database.tenants := Database.tenants db ++ [tenant];
             Database.roles := Database.roles db;
             Database.permissions := Database.permissions db |}).
Proof. exact create_user_ok. Qed.

Lemma X10_create_user_witness :
  exists u db',
    UsersCrud.create (tenantConfig (Some (Js.lit "example.com")))
      (ClsService.set ∅ "tenant" (Some acme)) (fun p => p)
      (installed (tenantConfig (Some (Js.lit "example.com"))) acme
         EntityManager.fresh)
      3 12 seededDatabase erin
    = Ok (EUser u, db')
    /\ User.tenant u
       = Some {| Tenant.id := 3;
                 Tenant.domain := Js.lit "initech.example.com";
                 Tenant.isActive := true |}
    /\ User.role u = Some (unpopulated Seed.user).
Proof.
  eexists. eexists. split.
  - apply (X10_create_user (Js.lit "example.com")
             (ClsService.set ∅ "tenant" (Some acme)) (fun p => p)
             (installed (tenantConfig (Some (Js.lit "example.com"))) acme
                EntityManager.fresh)
             3 12 seededDatabase erin Seed.user).
    + right. exists acme. reflexivity.
    + simpl. auto.
    + reflexivity.
    + intros r' [<-|[<-|[]]] Hname; [vm_compute in Hname; discriminate Hname | reflexivity].
    + intros r' [<-|[<-|[]]] Hid; [vm_compute in Hid; discriminate Hid | reflexivity].
    + intros t' [].
    + intros u' [].
  - split; reflexivity.
Defined.

(** X11: [UsersService.create] writes nothing when a unique column
    clashes: a user that already holds the dto's name or email, or a tenant
    that already holds the normalized domain, makes the flush throw. *)
Theorem X11_create_user_duplicate :
  forall (root : Js.jsstring) (cls : ClsService.store)
         (hash : Js.jsstring -> Js.jsstring) (em : EntityManager.t)
         (tenantId userId : Z) (db : Database.t) (dto : CreateUserDto.t),
    requestSession (Some root) em ->
    (exists u', In u' (Database.users db)
                /\ (User.username u' = CreateUserDto.username dto
                    \/ User.email u' = CreateUserDto.email dto))
    \/ (exists t', In t' (Database.tenants db)
                   /\ Tenant.domain t'
                      = CreateUserDto.domain dto ++ Js.lit "." ++ root) ->
    exists e,
      UsersCrud.create (tenantConfig (Some root)) cls hash em
        tenantId userId db dto = Throw e.
Proof.
  intros root cls hash em tenantId userId db dto Hem Hclash.
  unfold UsersCrud.create. rewrite (defaultRole_requestSession _ em _ Hem).
  destruct (List.find _ (Database.roles db)) as [r|]; [|simpl; eauto].
  cbn [fmap option_fmap option_map mbind result_bind].
  unfold UnitOfWork.persistNew. rewrite dispatch_tenant.
  cbn [mbind result_bind UnitOfWork.validateRequired UnitOfWork.insert
       Tenant.id Tenant.domain Tenant.isActive].
  destruct (existsb _ (Database.tenants db)) eqn:Htaken; [simpl; eauto|].
  cbn [mbind result_bind fst snd asTenant]. rewrite dispatch_user.
  cbn [mbind result_bind UnitOfWork.validateRequired UnitOfWork.insert
       User.role User.tenant].
  destruct (UnitOfWork.userRow _ _) as [row|] eqn:Hrow; [|eauto].
  apply userRow_Some in Hrow as (_ & Hrn & Hre & _).
  rewrite Hrn, Hre.
  cbn [User.username User.email
       Database.users Database.organizations
       Database.tenants Database.roles Database.permissions].
  destruct Hclash as [(u' & Hu' & Hsame) | (t' & Ht' & Hdom)].
  - rewrite (proj2 (existsb_exists _ _)); [simpl; eauto|].
    exists u'. split; [exact Hu'|].
    apply orb_true_iff.
    destruct Hsame as [H|H]; [left|right]; apply bool_decide_eq_true; exact H.
  - exfalso. apply not_true_iff_false in Htaken. apply Htaken.
    apply existsb_exists. exists t'. split; [exact Ht'|].
    apply bool_decide_eq_true. exact Hdom.
Qed.

Lemma X11_create_user_duplicate_witness :
  exists e,
    UsersCrud.create (tenantConfig (Some (Js.lit "example.com"))) ∅ (fun p => p)
      EntityManager.fresh 3 12
      {| Database.users := [];
         Database.organizations := [];
         Database.tenants :=
           [{| Tenant.id := 1; Tenant.domain := Js.lit "initech.example.com";
               Tenant.isActive := true |}];
         Database.roles := [Seed.admin; Seed.user];
         Database.permissions := [] |}
      erin
    = Throw e.
Proof.
  apply (X11_create_user_duplicate (Js.lit "example.com") ∅ (fun p => p)
           EntityManager.fresh 3 12).
  - left. reflexivity.
  - right. eexists. split; [left; reflexivity | reflexivity].
Defined.

(** X12: on the untouched session of the public login route,
    [validateUser] tells an unknown user name from a wrong password: it
    throws [BadRequestException] exactly when no user has the name, and
    when some user has it the outcome is [UnauthorizedException] or a user;
    a user it returns is a stored one, has the name, and its password hash
    compares equal to the password given. *)
Theorem X12_validateUser_outcomes :
  forall (compare : Js.jsstring -> Js.jsstring -> bool) (users : list User.t)
         (username pass : Js.jsstring),
    let outcome :=
      AuthService.validateUser compare EntityManager.fresh users username pass in
    (outcome = Throw (BadRequestException "用户不存在")
     <-> forall u, In u users -> User.username u <> username)
    /\ ((exists u, In u users /\ User.username u = username) ->
        outcome = Throw (UnauthorizedException "密码错误")
        \/ exists u, outcome = Ok u)
    /\ (forall u, outcome = Ok u ->
        In u users /\ User.username u = username
        /\ compare pass (User.password u) = true).
Proof.
  intros compare users username pass outcome. subst outcome.
  unfold AuthService.validateUser, UsersCrud.findOneWithUsername.
  rewrite findOneWhere_fresh. cbn [mbind result_bind].
  destruct (List.find _ users) as [u|] eqn:Hfind.
  - apply find_some in Hfind as [Hin Hname].
    apply bool_decide_eq_true in Hname.
    split; [|split].
    + split.
      * destruct (compare pass (User.password u)); discriminate.
      * intros Hnone. destruct (Hnone u Hin Hname).
    + intros _. destruct (compare pass (User.password u)); eauto.
    + intros u' Hok.
      destruct (compare pass (User.password u)) eqn:Hcmp; [|discriminate Hok].
      injection Hok as <-. auto.
  - split; [|split].
    + split; [|reflexivity]. intros _ u Hu Hname.
      apply (find_none _ _ Hfind) in Hu.
      apply bool_decide_eq_false in Hu. contradiction.
    + intros (u & Hu & Hname).
      apply (find_none _ _ Hfind) in Hu.
      apply bool_decide_eq_false in Hu. contradiction.
    + intros u Hok. discriminate Hok.
Qed.

(** X13: on the untouched session a guard runs on, the JWT strategy
    resolves the payload that [login] signs for a stored user (keys
    identifying rows) to that user and records the user's tenant in the
    request context store; a subject that is no user's key resolves to
    null and leaves the store as it was. *)
Theorem X13_login_validate_round_trip :
  forall (users : list User.t) (cls : ClsService.store) (u : User.t) (sub : Z),
    uniqueKeys users ->
    (In u users ->
     JwtStrategy.validate EntityManager.fresh users cls
       (AuthService.sub (AuthService.payloadOf u))
     = Ok (Some u, ClsService.set cls "tenant" (User.tenant u)))
    /\ ((forall u', In u' users -> User.id u' <> sub) ->
        JwtStrategy.validate EntityManager.fresh users cls sub = Ok (None, cls)).
Proof.
  intros users cls u sub Huniq.
  unfold JwtStrategy.validate, UsersService.findOne, EntityRepository.findOne.
  split.
  - intros Hin. rewrite findOne_fresh.
    rewrite (find_unique (A := User.t) _ _ u Hin).
    + reflexivity.
    + apply Z.eqb_refl.
    + intros u' Hu' Hid. apply Z.eqb_eq in Hid. apply Huniq; assumption.
  - intros Hnone. rewrite findOne_fresh. rewrite find_None; [reflexivity|].
    intros u' Hu'. apply Z.eqb_neq. exact (Hnone u' Hu').
Qed.

Lemma X13_login_validate_round_trip_witness :
  JwtStrategy.validate EntityManager.fresh [alice; bob] ∅
    (AuthService.sub (AuthService.payloadOf bob))
  = Ok (Some bob, ClsService.set ∅ "tenant" (Some globex)).
Proof.
  apply (X13_login_validate_round_trip [alice; bob] ∅ bob 0).
  - intros row row' [<-|[<-|[]]] [<-|[<-|[]]] Hid;
      try reflexivity; vm_compute in Hid; discriminate Hid.
  - simpl. auto.
Defined.

(** X14: the uniqueness validator answers for the rows its session sees.
    On the session of a scoped request it returns true exactly when no
    organization of the principal's tenant has the name, so a name that
    only other tenants use passes; on an untouched session it returns true
    exactly when no organization at all has the name; called without its
    arguments it throws a [TypeError], whatever the session and the rows. *)
Theorem X14_isUnique_scope :
  forall (TENANT_DOMAIN : option Js.jsstring) (t : Tenant.t)
         (em : EntityManager.t) (organizations : list Organization.t)
         (value : Js.jsstring) (args : IsUnique.ValidationArguments),
    let column (o : Organization.t) := Some (Organization.name o) in
    let scopedSession :=
      installed (tenantConfig TENANT_DOMAIN) t EntityManager.fresh in
    (exists b, IsUnique.validate scopedSession organizations column value
                 (Some args) = Ok b
               /\ (b = true <->
                   forall o, In o organizations -> Organization.name o = value ->
                             ownedBy t o = false))
    /\ (exists b, IsUnique.validate EntityManager.fresh organizations column
                    value (Some args) = Ok b
                  /\ (b = true <->
                      forall o, In o organizations ->
                                Organization.name o <> value))
    /\ (exists message,
          IsUnique.validate em organizations column value None
          = Throw (TypeError message)).
Proof.
  intros D t em organizations value args column scopedSession.
  subst scopedSession. unfold IsUnique.validate.
  split; [|split; [|eexists; reflexivity]].
  - rewrite (findOneWhere_installed_fresh (A := Organization.t)) by (simpl; auto).
    cbn [mbind result_bind]. eexists. split; [reflexivity|].
    destruct (List.find _ organizations) as [o|] eqn:Hfind.
    + apply find_some in Hfind as [Hin Hp].
      apply andb_true_iff in Hp as [Hname Hown].
      apply bool_decide_eq_true in Hname. injection Hname as Hname.
      rewrite bool_decide_eq_true_2 by eauto. simpl.
      split; [discriminate|]. intros Hall.
      rewrite (Hall o Hin Hname) in Hown. discriminate Hown.
    + rewrite bool_decide_eq_false_2 by (intros [x Hx]; discriminate Hx).
      simpl. split; [|reflexivity]. intros _ o Hin Hname.
      apply (find_none _ _ Hfind) in Hin.
      apply andb_false_iff in Hin as [Hn|Hown]; [|exact Hown].
      apply bool_decide_eq_false in Hn. subst column. simpl in Hn. congruence.
  - rewrite findOneWhere_fresh. cbn [mbind result_bind].
    eexists. split; [reflexivity|].
    destruct (List.find _ organizations) as [o|] eqn:Hfind.
    + apply find_some in Hfind as [Hin Hname].
      apply bool_decide_eq_true in Hname. injection Hname as Hname.
      rewrite bool_decide_eq_true_2 by eauto. simpl.
      split; [discriminate|]. intros Hall. destruct (Hall o Hin Hname).
    + rewrite bool_decide_eq_false_2 by (intros [x Hx]; discriminate Hx).
      simpl. split; [|reflexivity]. intros _ o Hin Hname.
      apply (find_none _ _ Hfind) in Hin.
      apply bool_decide_eq_false in Hin. subst column. simpl in Hin. congruence.
Qed.

(** ** Interceptor: routes outside the scope, and sessions used before *)

(** X15: on a route marked public or skip-tenant the interceptor hands the
    session over untouched, user or no user, and a handler that lists the
    organizations on a session of its own gets every row of the table,
    whatever tenant it belongs to. *)
Theorem X15_unscoped_route_unfiltered :
  forall (cfg : TenantConfig.t) (context : ExecutionContext.t)
         (em : EntityManager.t) (organizations : list Organization.t),
    truthy (Reflector.getAllAndOverride Metadata.isPublic
              [ExecutionContext.getHandler context;
               ExecutionContext.getClass context]) = true
    \/ truthy (Reflector.getAllAndOverride Metadata.skipTenant
                 [ExecutionContext.getHandler context;
                  ExecutionContext.getClass context]) = true ->
    TenantInterceptor.intercept cfg context em = Ok em
    /\ Nest.handleRequest cfg false context EntityManager.fresh
         (fun em' => OrganizationsCrud.findAll em' organizations)
       = Ok organizations.
Proof.
  intros cfg context em organizations Hmark.
  assert (Hint : forall em0, TenantInterceptor.intercept cfg context em0 = Ok em0).
  { intros em0. unfold TenantInterceptor.intercept.
    destruct Hmark as [Hpub | Hskip]; [rewrite Hpub; reflexivity|].
    rewrite Hskip.
    destruct (truthy (Reflector.getAllAndOverride Metadata.isPublic _));
      reflexivity. }
  split; [apply Hint|].
  unfold Nest.handleRequest. cbn [mbind result_bind]. rewrite Hint.
  cbn [mbind result_bind].
  unfold OrganizationsCrud.findAll, Repository.findAll, Repository.find.
  rewrite applyFilters_fresh. cbn [mbind result_bind]. f_equal.
  induction organizations as [|o l IH]; [reflexivity|].
  cbn. cbn in IH. rewrite IH. reflexivity.
Qed.

Lemma X15_unscoped_route_unfiltered_witness :
  Nest.handleRequest (tenantConfig None) false
    (contextOf {| Metadata.isPublic := Some true; Metadata.skipTenant := None;
                  Metadata.checkPolicy := None |} None "")
    EntityManager.fresh
    (fun em' => OrganizationsCrud.findAll em'
                  [sales (Some acme); sales (Some globex)])
  = Ok [sales (Some acme); sales (Some globex)].
Proof.
  apply (X15_unscoped_route_unfiltered (tenantConfig None)
           (contextOf {| Metadata.isPublic := Some true;
                         Metadata.skipTenant := None;
                         Metadata.checkPolicy := None |} None "")
           EntityManager.fresh).
  left. reflexivity.
Defined.

Lemma installed_installed cfg cfg' t t' em :
  installed cfg t (installed cfg' t' em) = installed cfg t em.
Proof.
  unfold installed, EntityManager.setFilterParams, EntityManager.addFilter.
  cbn [EntityManager.filters EntityManager.filterParams].
  rewrite !insert_insert_eq. reflexivity.
Qed.

Lemma intercept_installed cfg context em u t :
  scoped context ->
  Request.user (ExecutionContext.getRequest context) = Some u ->
  User.tenant u = Some t ->
  TenantInterceptor.intercept cfg context em = Ok (installed cfg t em).
Proof.
  intros Hscoped Hu Ht.
  rewrite (intercept_scoped cfg context em Hscoped), Hu, Ht. reflexivity.
Qed.

(** X16: what the interceptor installs replaces what an earlier request
    installed: on a scoped request, the session it hands over is the same
    whether or not the session came with the tenant filter of another
    configuration and tenant, and it is the same when the interceptor runs
    twice. *)
Theorem X16_filter_replaced :
  forall (cfg cfg' : TenantConfig.t) (t' : Tenant.t)
         (context : ExecutionContext.t) (em : EntityManager.t),
    scoped context ->
    TenantInterceptor.intercept cfg context (installed cfg' t' em)
    = TenantInterceptor.intercept cfg context em
    /\ (forall em1, TenantInterceptor.intercept cfg context em = Ok em1 ->
        TenantInterceptor.intercept cfg context em1 = Ok em1).
Proof.
  intros cfg cfg' t' context em Hscoped.
  destruct (Request.user (ExecutionContext.getRequest context)) as [u|] eqn:Hu.
  2:{ rewrite !(intercept_scoped cfg context _ Hscoped), Hu.
      split; [reflexivity | discriminate]. }
  destruct (User.tenant u) as [t|] eqn:Ht.
  2:{ rewrite !(intercept_scoped cfg context _ Hscoped), Hu, Ht.
      split; [reflexivity | discriminate]. }
  rewrite !(intercept_installed cfg context _ u t Hscoped Hu Ht).
  rewrite installed_installed. split; [reflexivity|].
  intros em1 [= <-].
  rewrite (intercept_installed cfg context _ u t Hscoped Hu Ht).
  rewrite installed_installed. reflexivity.
Qed.

Lemma X16_filter_replaced_witness :
  TenantInterceptor.intercept (tenantConfig None)
    (contextOf Metadata.none (Some alice) "3")
    (installed (tenantConfig None) globex EntityManager.fresh)
  = Ok (installed (tenantConfig None) acme EntityManager.fresh).
Proof.
  refine (eq_trans (proj1 (X16_filter_replaced (tenantConfig None)
                             (tenantConfig None) globex
                             (contextOf Metadata.none (Some alice) "3")
                             EntityManager.fresh _)) _).
  - split; reflexivity.
  - reflexivity.
Defined.

(** ** Subscribers: what the before-create event leaves alone *)

(** X17: under the shipped configuration the before-create event leaves
    a new user, role or permission exactly as it is, whatever the request
    context store holds: a new user keeps the tenant it was given. *)
Theorem X17_user_not_stamped :
  forall (TENANT_DOMAIN : option Js.jsstring) (cls : ClsService.store)
         (entity : AnyEntity),
    constructorName entity <> OrganizationEntity ->
    constructorName entity <> TenantEntity ->
    EventManager.dispatchBeforeCreate (tenantConfig TENANT_DOMAIN) cls entity
    = Ok entity.
Proof.
  intros D cls entity Horg Hten.
  destruct entity; simpl in Horg, Hten; try congruence; reflexivity.
Qed.

Lemma X17_user_not_stamped_witness :
  EventManager.dispatchBeforeCreate (tenantConfig None)
    (ClsService.set ∅ "tenant" (Some acme)) (EUser bob)
  = Ok (EUser bob).
Proof.
  apply (X17_user_not_stamped None (ClsService.set ∅ "tenant" (Some acme))
           (EUser bob)); discriminate.
Defined.

(** X18: stamping overwrites: the before-create event of an organization
    that an earlier event already stamped, under any store, gives what the
    event gives on the organization itself; sent twice under one store, it
    gives what it gives once. *)
Theorem X18_stamping_overwrites :
  forall (TENANT_DOMAIN : option Js.jsstring) (cls1 cls2 : ClsService.store)
         (o : Organization.t),
    let dispatch cls e :=
      EventManager.dispatchBeforeCreate (tenantConfig TENANT_DOMAIN) cls e in
    (dispatch cls1 (EOrganization o) ≫= dispatch cls2)
    = dispatch cls2 (EOrganization o)
    /\ (dispatch cls1 (EOrganization o) ≫= dispatch cls1)
       = dispatch cls1 (EOrganization o).
Proof. intros D cls1 cls2 o dispatch. split; reflexivity. Qed.

Lemma normalized_domain (cfg : TenantConfig.t) (t : Tenant.t) :
  TenantSubscriber.beforeCreate cfg t
  = Ok {| Tenant.id := Tenant.id t;
          Tenant.domain :=
            Tenant.domain t ++ Js.lit "."
            ++ default (Js.lit "undefined") (TenantConfig.domain cfg);
          Tenant.isActive := Tenant.isActive t |}.
Proof.
  unfold TenantSubscriber.beforeCreate, Js.concatUndefined.
  rewrite <- app_assoc. reflexivity.
Qed.

(** X19: domain normalization is not idempotent: run on its own result it
    appends the suffix again, so each run makes the domain strictly longer
    and the second result differs from the first; with no root domain
    configured the suffix is [.undefined]. *)
Theorem X19_normalization_not_idempotent :
  forall (cfg : TenantConfig.t) (t : Tenant.t),
    let suffix :=
      Js.lit "." ++ default (Js.lit "undefined") (TenantConfig.domain cfg) in
    exists t1 t2,
      TenantSubscriber.beforeCreate cfg t = Ok t1
      /\ TenantSubscriber.beforeCreate cfg t1 = Ok t2
      /\ Tenant.domain t1 = Tenant.domain t ++ suffix
      /\ Tenant.domain t2 = Tenant.domain t ++ suffix ++ suffix
      /\ (length (Tenant.domain t) < length (Tenant.domain t1)
          < length (Tenant.domain t2))%nat
      /\ t2 <> t1.
Proof.
  intros cfg t suffix.
  eexists. eexists. split; [apply normalized_domain|].
  split; [apply normalized_domain|]. cbn [Tenant.domain].
  split; [reflexivity|]. split.
  - subst suffix. rewrite <- !app_assoc. reflexivity.
  - assert (Hlen : (0 < length suffix)%nat) by (subst suffix; simpl; lia).
    fold suffix. split.
    + rewrite !length_app. lia.
    + intros Heq. apply (f_equal (fun x => length (Tenant.domain x))) in Heq.
      cbn [Tenant.domain] in Heq. fold suffix in Heq.
      rewrite !length_app in Heq. lia.
Qed.

(** X20: under one configuration, normalization keeps labels apart: two
    new tenants whose normalized domains are equal had equal labels. *)
Theorem X20_normalization_injective :
  forall (cfg : TenantConfig.t) (t1 t2 t1' t2' : Tenant.t),
    TenantSubscriber.beforeCreate cfg t1 = Ok t1' ->
    TenantSubscriber.beforeCreate cfg t2 = Ok t2' ->
    Tenant.domain t1' = Tenant.domain t2' ->
    Tenant.domain t1 = Tenant.domain t2.
Proof.
  intros cfg t1 t2 t1' t2' H1 H2 Heq.
  rewrite normalized_domain in H1, H2.
  injection H1 as <-. injection H2 as <-. cbn [Tenant.domain] in Heq.
  apply app_inv_tail in Heq. exact Heq.
Qed.

Lemma X20_normalization_injective_witness :
  Tenant.domain acme = Tenant.domain acme.
Proof.
  apply (X20_normalization_injective (tenantConfig (Some (Js.lit "test.app")))
           acme
           {| Tenant.id := 2; Tenant.domain := Tenant.domain acme;
              Tenant.isActive := false |}
           {| Tenant.id := 1;
              Tenant.domain := Js.lit "acme.example.com.test.app";
              Tenant.isActive := true |}
           {| Tenant.id := 2;
              Tenant.domain := Js.lit "acme.example.com.test.app";
              Tenant.isActive := false |});
    reflexivity.
Defined.

(** ** Abilities and policies *)

Lemma existsb_Permutation {A} (p : A -> bool) (l l' : list A) :
  Permutation l l' -> existsb p l = existsb p l'.
Proof.
  induction 1 as [|x l l' _ IH|x y l|l l' l'' _ IH1 _ IH2]; simpl.
  - reflexivity.
  - rewrite IH. reflexivity.
  - destruct (p x), (p y); reflexivity.
  - congruence.
Qed.

(** X21: an ability depends on which permissions the role has, not on
    their order: two lists that are permutations of each other grant the
    same pairs. *)
Theorem X21_ability_order_irrelevant :
  forall (ps ps' : list Permission.t) (a s : Js.jsstring),
    Permutation ps ps' ->
    Casl.can (abilityOf ps) a s = Casl.can (abilityOf ps') a s.
Proof.
  intros ps ps' a s Hperm. unfold abilityOf.
  rewrite !can_createForUser. apply existsb_Permutation. exact Hperm.
Qed.

Lemma X21_ability_order_irrelevant_witness :
  Casl.can (abilityOf [readOwn_user; manage_organization])
    Actions.Delete Subjects.Organization
  = Casl.can (abilityOf [manage_organization; readOwn_user])
      Actions.Delete Subjects.Organization.
Proof.
  apply (X21_ability_order_irrelevant [readOwn_user; manage_organization]
           [manage_organization; readOwn_user]).
  apply perm_swap.
Defined.

(** X22: one permission with action [manage] and subject [all] makes the
    ability grant every pair, and every policy of the program pass: the
    read-user policy for every path id (the user is not even read), the
    read-any-organization and the delete-organization policies. *)
Theorem X22_manage_all :
  forall (ps : list Permission.t) (p : Permission.t),
    In p ps ->
    Permission.action p = Some Casl.anyAction ->
    Permission.subject p = Some Casl.anySubjectType ->
    (forall a s, Casl.can (abilityOf ps) a s = true)
    /\ (forall user request,
        ReadUserPolicy.handle (abilityOf ps) user request = Ok true
        /\ ReadAnyOrganizationPolicyHandler.handle (abilityOf ps) user request
           = Ok true
        /\ DeleteOrganizationPolicyHandler.handle (abilityOf ps) user request
           = Ok true).
Proof.
  intros ps p Hin Ha Hs.
  assert (Hcan : forall a s, Casl.can (abilityOf ps) a s = true).
  { intros a s. unfold abilityOf. rewrite can_createForUser.
    apply existsb_exists. exists p. split; [exact Hin|].
    apply matches_toRule. auto. }
  split; [exact Hcan|]. intros user request.
  unfold ReadUserPolicy.handle, ReadAnyOrganizationPolicyHandler.handle,
    DeleteOrganizationPolicyHandler.handle.
  rewrite !Hcan. auto.
Qed.

Lemma X22_manage_all_witness :
  ReadUserPolicy.handle (abilityOf [Seed.read_user; manage_all]) None
    (requestOf None "abc")
  = Ok true.
Proof.
  apply (X22_manage_all [Seed.read_user; manage_all] manage_all).
  - simpl. auto.
  - reflexivity.
  - reflexivity.
Defined.

(** X23: a permission whose action is null grants nothing: dropping it
    from the list leaves every answer of the ability as it was; and the
    empty list grants nothing. *)
Theorem X23_null_action_grants_nothing :
  forall (p : Permission.t) (ps : list Permission.t) (a s : Js.jsstring),
    Permission.action p = None ->
    Casl.can (abilityOf (p :: ps)) a s = Casl.can (abilityOf ps) a s
    /\ Casl.can (abilityOf []) a s = false.
Proof.
  intros p ps a s Hnull. unfold abilityOf. rewrite !can_createForUser.
  split; [|reflexivity]. simpl.
  replace (Casl.matches a s (CaslAbilityFactory.toRule p)) with false;
    [reflexivity|].
  symmetry. apply not_true_is_false. intros Hm.
  apply matches_toRule in Hm as [_ [Ha|Ha]]; congruence.
Qed.

Lemma X23_null_action_grants_nothing_witness :
  Casl.can
    (abilityOf [{| Permission.id := 12; Permission.name := Js.lit "draft";
                   Permission.action := None;
                   Permission.subject := Some Subjects.User |}])
    Actions.Read Subjects.User
  = Casl.can (abilityOf []) Actions.Read Subjects.User.
Proof.
  apply (X23_null_action_grants_nothing
           {| Permission.id := 12; Permission.name := Js.lit "draft";
              Permission.action := None;
              Permission.subject := Some Subjects.User |} []).
  reflexivity.
Defined.

(** X24: with the seeded permissions, whose actions are [create], [read],
    [update] and [delete], neither seeded role passes the read-user policy
    or the read-any-organization policy, whatever the user and the request;
    the delete-organization policy passes for [admin] and not for [user]. *)
Theorem X24_seeded_roles :
  forall (u : User.t) (ability : Casl.Ability) (request : Request.t),
    User.role u = Some Seed.admin \/ User.role u = Some Seed.user ->
    CaslAbilityFactory.createForUser (Some u) = Ok ability ->
    ReadUserPolicy.handle ability (Some u) request = Ok false
    /\ ReadAnyOrganizationPolicyHandler.handle ability (Some u) request
       = Ok false
    /\ (User.role u = Some Seed.admin ->
        DeleteOrganizationPolicyHandler.handle ability (Some u) request = Ok true)
    /\ (User.role u = Some Seed.user ->
        DeleteOrganizationPolicyHandler.handle ability (Some u) request
        = Ok false).
Proof.
  intros u ability request Hrole Hab.
  unfold CaslAbilityFactory.createForUser in Hab.
  destruct Hrole as [Hr | Hr]; rewrite Hr in Hab; simpl in Hab;
    injection Hab as <-.
  - split; [vm_compute; reflexivity|]. split; [vm_compute; reflexivity|].
    split; [intros _; vm_compute; reflexivity|].
    intros Hr'. rewrite Hr in Hr'. apply (f_equal (fmap Role.id)) in Hr'.
    discriminate Hr'.
  - split; [vm_compute; reflexivity|]. split; [vm_compute; reflexivity|].
    split; [|intros _; vm_compute; reflexivity].
    intros Hr'. rewrite Hr in Hr'. apply (f_equal (fmap Role.id)) in Hr'.
    discriminate Hr'.
Qed.

Lemma X24_seeded_roles_witness :
  ReadUserPolicy.handle (abilityOf [Seed.read_user; Seed.read_organization])
    (Some dan) (requestOf (Some dan) "11")
  = Ok false.
Proof.
  refine (proj1 (X24_seeded_roles dan
                   (abilityOf [Seed.read_user; Seed.read_organization])
                   (requestOf (Some dan) "11") _ _)).
  - right. reflexivity.
  - reflexivity.
Defined.

(** X25: the guard stops at the first policy that does not return true.
    For a request that carries the principal, when the policies declared
    before some policy all return true, the guard denies if that policy
    returns false and throws if it throws, whatever the policies declared
    after it would do. *)
Theorem X25_guard_stops_at_first_failure :
  forall (context : ExecutionContext.t) (u : User.t) (r : Role.t)
         (ps : list Permission.t) (before after : list PolicyHandler)
         (handler : PolicyHandler),
    let request := ExecutionContext.getRequest context in
    let run h := PoliciesGuard.execPolicyHandler h (abilityOf ps) (Some u) request in
    Request.user request = Some u ->
    User.role u = Some r ->
    Role.permissions r = Initialized ps ->
    Metadata.checkPolicy (ExecutionContext.getHandler context)
    = Some (before ++ handler :: after) ->
    (forall h, In h before -> run h = Ok true) ->
    (run handler = Ok false -> PoliciesGuard.canActivate context = Ok false)
    /\ (forall e, run handler = Throw e ->
        PoliciesGuard.canActivate context = Throw e).
Proof.
  intros context u r ps before after handler request run Hu Hr Hps Hmeta Hbefore.
  assert (Hcan : PoliciesGuard.canActivate context
                 = every run (before ++ handler :: after)).
  { unfold PoliciesGuard.canActivate, CaslAbilityFactory.createForUser,
      Reflector.get.
    fold request. rewrite Hu, Hr, Hps, Hmeta. reflexivity. }
  rewrite Hcan. clear Hcan Hmeta.
  induction before as [|h before IH]; simpl.
  - split; [intros ->; reflexivity | intros e ->; reflexivity].
  - rewrite (Hbefore h (or_introl eq_refl)). simpl. apply IH.
    intros h' Hh'. apply Hbefore. right. exact Hh'.
Qed.

Lemma X25_guard_stops_at_first_failure_witness :
  PoliciesGuard.canActivate
    (contextOf
       (checkPolicies
          [IPolicyHandler DeleteOrganizationPolicyHandler.handle;
           IPolicyHandler ReadUserPolicy.handle;
           Callback (fun _ _ _ => Throw (Error "unreachable"))])
       (Some carol) "5")
  = Ok false.
Proof.
  apply (proj1 (X25_guard_stops_at_first_failure
                  (contextOf
                     (checkPolicies
                        [IPolicyHandler DeleteOrganizationPolicyHandler.handle;
                         IPolicyHandler ReadUserPolicy.handle;
                         Callback (fun _ _ _ => Throw (Error "unreachable"))])
                     (Some carol) "5")
                  carol manager [manage_organization; readOwn_user]
                  [IPolicyHandler DeleteOrganizationPolicyHandler.handle]
                  [Callback (fun _ _ _ => Throw (Error "unreachable"))]
                  (IPolicyHandler ReadUserPolicy.handle)
                  eq_refl eq_refl eq_refl eq_refl
                  ltac:(intros h [<-|[]]; vm_compute; reflexivity))).
  vm_compute. reflexivity.
Defined.

(** ** Registration, login and profile *)

(** X26: a user that [UsersService.create] has written can log in: with a
    hash function and a comparison that agree on the dto's password,
    [validateUser] on the new user table accepts the dto's name and
    password, and the JWT strategy resolves the payload signed for the
    created user (the generated key being new).  Both return the stored
    row: it has the key, name, email, password hash and tenant of the
    entity [create] returned and the same role, with the role's
    permissions loaded where the created entity has them not loaded. *)
Theorem X26_register_then_login :
  forall (root : Js.jsstring) (cls cls' : ClsService.store)
         (hash : Js.jsstring -> Js.jsstring)
         (compare : Js.jsstring -> Js.jsstring -> bool)
         (em : EntityManager.t) (tenantId userId : Z) (db : Database.t)
         (dto : CreateUserDto.t) (r : Role.t),
    requestSession (Some root) em ->
    In r (Database.roles db) ->
    Role.name r = Js.lit "user" ->
    (forall r', In r' (Database.roles db) -> Role.name r' = Role.name r -> r' = r) ->
    (forall r', In r' (Database.roles db) -> Role.id r' = Role.id r -> r' = r) ->
    (forall t', In t' (Database.tenants db) ->
                Tenant.domain t' <> CreateUserDto.domain dto ++ Js.lit "." ++ root) ->
    (forall u', In u' (Database.users db) ->
                User.username u' <> CreateUserDto.username dto
                /\ User.email u' <> CreateUserDto.email dto) ->
    (forall u', In u' (Database.users db) -> User.id u' <> userId) ->
    compare (CreateUserDto.password dto) (hash (CreateUserDto.password dto)) = true ->
    exists created row db',
      UsersCrud.create (tenantConfig (Some root)) cls hash em
        tenantId userId db dto = Ok (EUser created, db')
      /\ AuthService.validateUser compare EntityManager.fresh (Database.users db')
           (CreateUserDto.username dto) (CreateUserDto.password dto) = Ok row
      /\ JwtStrategy.validate EntityManager.fresh (Database.users db') cls'
           (AuthService.sub (AuthService.payloadOf created))
         = Ok (Some row, ClsService.set cls' "tenant" (User.tenant created))
      /\ User.id row = User.id created
      /\ User.username row = User.username created
      /\ User.email row = User.email created
      /\ User.password row = User.password created
      /\ User.tenant row = User.tenant created
      /\ User.role created = Some (unpopulated r)
      /\ User.role row = Some r.
Proof.
  intros root cls cls' hash compare em tenantId userId db dto r Hem Hr Hname
         Huniq Hkey Htenants Husers Hkeys Hcmp.
  eexists. eexists. eexists. split.
  { apply (create_user_ok root cls hash em tenantId userId db dto r);
      assumption. }
  cbn [Database.users]. split; [|split].
  - unfold AuthService.validateUser, UsersCrud.findOneWithUsername.
    rewrite findOneWhere_fresh. cbn [mbind result_bind].
    rewrite find_app_last.
    2:{ intros u' Hu'. apply bool_decide_eq_false. exact (proj1 (Husers u' Hu')). }
    cbn [User.username]. rewrite bool_decide_eq_true_2 by reflexivity.
    cbn [User.password]. rewrite Hcmp. reflexivity.
  - unfold JwtStrategy.validate, UsersService.findOne, EntityRepository.findOne.
    rewrite findOne_fresh. cbn [AuthService.sub AuthService.payloadOf User.id].
    rewrite find_app_last.
    2:{ intros u' Hu'. apply Z.eqb_neq. exact (Hkeys u' Hu'). }
    cbn [primaryKey User_Entity User.id]. rewrite Z.eqb_refl. reflexivity.
  - repeat split.
Qed.

Lemma X26_register_then_login_witness :
  exists created row db',
    UsersCrud.create (tenantConfig (Some (Js.lit "example.com"))) ∅ (fun p => p)
      EntityManager.fresh 3 12 seededDatabase erin = Ok (EUser created, db')
    /\ AuthService.validateUser (fun p h => bool_decide (p = h))
         EntityManager.fresh (Database.users db')
         (Js.lit "erin") (Js.lit "secret1") = Ok row
    /\ User.role created = Some (unpopulated Seed.user)
    /\ User.role row = Some Seed.user.
Proof.
  destruct (X26_register_then_login (Js.lit "example.com") ∅ ∅ (fun p => p)
              (fun p h => bool_decide (p = h)) EntityManager.fresh 3 12
              seededDatabase erin Seed.user)
    as (created & row & db' & Hcreate & Hlogin & _ & _ & _ & _ & _ & _ & Hc & Hrow).
  - left. reflexivity.
  - simpl. auto.
  - reflexivity.
  - intros r' [<-|[<-|[]]] Hname;
      [vm_compute in Hname; discriminate Hname | reflexivity].
  - intros r' [<-|[<-|[]]] Hid;
      [vm_compute in Hid; discriminate Hid | reflexivity].
  - intros t' [].
  - intros u' [].
  - intros u' [].
  - reflexivity.
  - exists created, row, db'. auto.
Defined.

(** X27: the profile route finds the caller: on a scoped request without
    policies, looking up the principal's own key on the session the
    interceptor hands over returns the principal's stored record (keys
    identifying rows). *)
Theorem X27_profile_found :
  forall (TENANT_DOMAIN : option Js.jsstring) (context : ExecutionContext.t)
         (users : list User.t) (principal : User.t) (t : Tenant.t),
    scoped context ->
    Request.user (ExecutionContext.getRequest context) = Some principal ->
    User.tenant principal = Some t ->
    In principal users ->
    uniqueKeys users ->
    Nest.handleRequest (tenantConfig TENANT_DOMAIN) false context
      EntityManager.fresh
      (fun em' => UsersService.findOne em' users (User.id principal) None)
    = Ok (Some principal).
Proof.
  intros D context users principal t Hscoped Hu Ht Hin Huniq.
  unfold Nest.handleRequest. cbn [mbind result_bind].
  rewrite (intercept_installed _ context _ principal t Hscoped Hu Ht).
  cbn [mbind result_bind].
  unfold UsersService.findOne, EntityRepository.findOne.
  pose proof (findOne_own (A := User.t) (tenantConfig D) t users principal)
    as Hfind.
  simpl in Hfind. apply Hfind.
  - auto.
  - exact Hin.
  - unfold ownedBy. apply bool_decide_eq_true. simpl. rewrite Ht. reflexivity.
  - exact Huniq.
Qed.

Lemma X27_profile_found_witness :
  Nest.handleRequest (tenantConfig None) false
    (contextOf Metadata.none (Some alice) "") EntityManager.fresh
    (fun em' => UsersService.findOne em' [alice; bob] (User.id alice) None)
  = Ok (Some alice).
Proof.
  apply (X27_profile_found None (contextOf Metadata.none (Some alice) "")
           [alice; bob] alice acme).
  - split; reflexivity.
  - reflexivity.
  - reflexivity.
  - simpl. auto.
  - intros row row' [<-|[<-|[]]] [<-|[<-|[]]] Hid;
      try reflexivity; vm_compute in Hid; discriminate Hid.
Defined.

(** ** Updating and removing users *)

(** X28: on the session the interceptor hands over, updating or removing
    a user by a key that no user of the principal's tenant has (the row is
    missing, or belongs to another tenant) never succeeds; when the other
    filters of the session have their parameters, both fail with the same
    [BadRequestException]. *)
Theorem X28_user_write_foreign_or_missing :
  forall (cfg : TenantConfig.t) (t : Tenant.t) (em : EntityManager.t)
         (repo : list User.t) (id : Z) (dto : UpdateUserDto.t),
    In UserEntity (TenantConfig.entities cfg) ->
    (forall u, In u repo -> User.id u = id -> ownedBy t u = false) ->
    let em' := installed cfg t em in
    (forall r, UsersWrites.update em' repo id dto <> Ok r)
    /\ (forall r, UsersWrites.remove em' repo id <> Ok r)
    /\ (parameterised em UserEntity ->
        UsersWrites.update em' repo id dto
        = Throw (BadRequestException "用户不存在")
        /\ UsersWrites.remove em' repo id
           = Throw (BadRequestException "用户不存在")).
Proof.
  intros cfg t em repo id dto HE Hnone em'. subst em'.
  pose proof (findOne_installed (A := User.t) cfg t em repo id) as Hfind.
  assert (Hq : EntityManager.findOne (installed cfg t em) repo id
               = (_ ← EntityManager.applyFilters (installed cfg t em)
                        UserEntity; Ok None)).
  { apply Hfind; [exact HE|]. intros u Hu Hid Hown.
    specialize (Hnone u Hu Hid). unfold ownedBy in Hnone.
    apply bool_decide_eq_false in Hnone. exact (Hnone Hown). }
  unfold UsersWrites.update, UsersWrites.remove, EntityRepository.findOne.
  rewrite Hq. split; [|split].
  - intros r. destruct (EntityManager.applyFilters _ _); discriminate.
  - intros r. destruct (EntityManager.applyFilters _ _); discriminate.
  - intros Hpar.
    destruct (applyFilters_parameterised cfg t em UserEntity Hpar)
      as [conds ->]. split; reflexivity.
Qed.

Lemma X28_user_write_foreign_or_missing_witness :
  UsersWrites.remove (installed (tenantConfig None) acme EntityManager.fresh)
    [alice; bob] 7
  = Throw (BadRequestException "用户不存在").
Proof.
  refine (proj2 (proj2 (proj2 (X28_user_write_foreign_or_missing
            (tenantConfig None) acme EntityManager.fresh [alice; bob] 7
            {| UpdateUserDto.username := None; UpdateUserDto.email := None;
               UpdateUserDto.password := None; UpdateUserDto.domain := None |}
            _ _)) _)).
  - simpl. auto.
  - intros u [<-|[<-|[]]] Hid; [vm_compute in Hid; discriminate Hid | reflexivity].
  - intros name f Hf. simpl in Hf. rewrite lookup_empty in Hf. discriminate Hf.
Defined.

(** X29: [update] stores a new password as the dto gives it, without
    hashing it: after a user of the principal's tenant updates only its
    password, the row keeps key, name, email, role and tenant and holds the
    dto's password, and [validateUser] accepts a password for that user
    exactly when it compares equal to the dto's password itself. *)
Theorem X29_update_password_as_given :
  forall (TENANT_DOMAIN : option Js.jsstring) (t : Tenant.t)
         (compare : Js.jsstring -> Js.jsstring -> bool)
         (repo : list User.t) (u : User.t) (newPassword pass : Js.jsstring),
    In u repo ->
    ownedBy t u = true ->
    uniqueKeys repo ->
    (forall r, In r repo -> User.username r = User.username u -> r = u) ->
    (forall r, In r repo -> User.email r = User.email u -> r = u) ->
    let dto := {| UpdateUserDto.username := None; UpdateUserDto.email := None;
                  UpdateUserDto.password := Some newPassword;
                  UpdateUserDto.domain := None |} in
    let u' := {| User.id := User.id u; User.username := User.username u;
                 User.email := User.email u; User.password := newPassword;
                 User.role := User.role u; User.tenant := User.tenant u |} in
    exists repo',
      UsersWrites.update
        (installed (tenantConfig TENANT_DOMAIN) t EntityManager.fresh)
        repo (User.id u) dto = Ok (u', repo')
      /\ AuthService.validateUser compare EntityManager.fresh repo'
           (User.username u) pass
         = if compare pass newPassword then Ok u'
           else Throw (UnauthorizedException "密码错误").
Proof.
  intros D t compare repo u newPassword pass Hin Hown Huniq Hname Hemail dto u'.
  exists (UnitOfWork.updateRow u' repo). split.
  - pose proof (findOne_own (A := User.t) (tenantConfig D) t repo u) as Hfind.
    unfold UsersWrites.update, EntityRepository.findOne.
    simpl in Hfind. rewrite Hfind by auto. cbn [mbind result_bind].
    change (UsersWrites.assign u dto) with u'.
    rewrite existsb_false; [reflexivity|].
    intros r Hr. destruct (Z.eqb_spec (User.id r) (User.id u')) as [Hid|Hid];
      [reflexivity|]. simpl.
    apply orb_false_iff. split; apply bool_decide_eq_false; intros Heq.
    + apply Hid. rewrite (Hname r Hr Heq). reflexivity.
    + apply Hid. rewrite (Hemail r Hr Heq). reflexivity.
  - unfold AuthService.validateUser, UsersCrud.findOneWithUsername.
    rewrite findOneWhere_fresh. cbn [mbind result_bind].
    assert (Hfound : List.find
                       (fun r => bool_decide (User.username r = User.username u))
                       (UnitOfWork.updateRow u' repo) = Some u').
    { unfold UnitOfWork.updateRow. clear Hown Huniq Hemail.
      induction repo as [|r repo IH]; [destruct Hin|]. simpl.
      destruct (Z.eqb_spec (User.id r) (User.id u)) as [Hid|Hid].
      - simpl. rewrite bool_decide_eq_true_2 by reflexivity. reflexivity.
      - rewrite bool_decide_eq_false_2.
        + destruct Hin as [->|Hin]; [contradiction|]. apply IH; [exact Hin|].
          intros r' Hr'. apply Hname. right. exact Hr'.
        + intros Heq. apply Hid. rewrite (Hname r (or_introl eq_refl) Heq).
          reflexivity. }
    rewrite Hfound. reflexivity.
Qed.

Lemma X29_update_password_as_given_witness :
  exists repo',
    UsersWrites.update (installed (tenantConfig None) acme EntityManager.fresh)
      [alice] 5
      {| UpdateUserDto.username := None; UpdateUserDto.email := None;
         UpdateUserDto.password := Some (Js.lit "hunter22");
         UpdateUserDto.domain := None |}
    = Ok ({| User.id := 5; User.username := Js.lit "alice";
             User.email := Js.lit "alice@acme.example.com";
             User.password := Js.lit "hunter22";
             User.role := Some member; User.tenant := Some acme |}, repo').
Proof.
  destruct (X29_update_password_as_given None acme (fun _ _ => false) [alice]
              alice (Js.lit "hunter22") (Js.lit "hunter22"))
    as (repo' & Hupd & _).
  - simpl. auto.
  - reflexivity.
  - intros row row' [<-|[]] [<-|[]] _. reflexivity.
  - intros r [<-|[]] _. reflexivity.
  - intros r [<-|[]] _. reflexivity.
  - exists repo'. exact Hupd.
Defined.
